(** * Mutation tools of [ads_mcp.tools.mutations]

    A shallow embedding of [src/ads_mcp/tools/mutations.py]: the five tools
    [create_campaign], [create_ad_group], [create_responsive_search_ad],
    [create_keyword] and [update_campaign], and the helper
    [_extract_error_details].

    The tools talk to the vendor library ([ads_mcp.utils] and the Google Ads
    client behind it).  The vendor is a parameter of the development: a record
    of functions that say, given the calls made so far, what each call
    returns or raises.  A tool is a computation that reads the history of
    calls, emits the calls it makes itself, and either returns a value or
    raises a Python exception.

    Conventions of the model:
    - exceptions are the ones derived from [Exception], which is what the
      [except] clauses of the tools catch;
    - [utils.logger] is the standard logger: a call to it is recorded and
      does not raise;
    - a vendor message is a record whose fields are [None] until the tool
      assigns them; a message read from a [MutateOperation] and then filled
      in is the message the operation holds when it is sent;
    - the arguments have the types of the signatures ([str], [int], lists of
      [str], [Optional]). *)

From Stdlib Require Import String Ascii List ZArith Lia DecimalString.
From stdpp Require Import gmap strings list fin_maps.
Import ListNotations.
Local Open Scope string_scope.
Local Open Scope list_scope.

(** ** Python values and exceptions *)

(** The values stored in the result dictionaries of the tools. *)
Inductive pyval :=
| VBool (b : bool)
| VStr (s : string).

(** One entry of [ex.failure.errors]; [error_code] is the text that
    formatting [error.error_code] in an f-string produces. *)
Record GoogleAdsError := mkGoogleAdsError {
  error_code : string;
  message : string }.

(** A [GoogleAdsException]: [ex.failure.errors] and what [str(ex)] gives. *)
Record GoogleAdsException := mkGoogleAdsException {
  failure_errors : list GoogleAdsError;
  str_GoogleAdsException : string }.

(** The exceptions derived from [Exception]: a [GoogleAdsException], or any
    other one, of which the tools only use [str(ex)]. *)
Inductive exn :=
| GoogleAds (ex : GoogleAdsException)
| Other (str_ex : string).

Definition str (ex : exn) : string :=
  match ex with
  | GoogleAds ex => str_GoogleAdsException ex
  | Other s => s
  end.

(** [str(i)] for an [int]. *)
Definition str_of_Z (z : Z) : string := NilZero.string_of_int (Z.to_int z).

(** [sep.join(l)], by recursion on the list as CPython does it. *)
Fixpoint join (sep : string) (l : list string) : string :=
  match l with
  | [] => ""
  | [x] => x
  | x :: rest => x +:+ sep +:+ join sep rest
  end.

(** [s.split(sep)] for a separator of one character: [cur] holds the
    characters of the current piece in reverse. *)
Fixpoint split_from (sep : ascii) (cur : string) (s : string) : list string :=
  match s with
  | EmptyString => [String.rev cur]
  | String c rest =>
      if Ascii.eqb c sep then String.rev cur :: split_from sep EmptyString rest
      else split_from sep (String c cur) rest
  end.

Definition split (sep : ascii) (s : string) : list string :=
  split_from sep EmptyString s.

(** Truth value of an [Optional[str]]: [None] and the empty string are
    falsy. *)
Definition truthy (o : option string) : bool :=
  match o with
  | Some s => negb (String.eqb s "")
  | None => false
  end.

(** ** Vendor messages *)

Definition enum_value := Z.

Record CampaignBudget := mkCampaignBudget {
  cb_resource_name : option string;
  cb_name : option string;
  cb_amount_micros : option Z;
  cb_delivery_method : option enum_value;
  cb_explicitly_shared : option bool }.

Record NetworkSettings := mkNetworkSettings {
  target_google_search : bool;
  target_search_network : bool;
  target_content_network : bool;
  target_partner_search_network : bool }.

Record Campaign := mkCampaign {
  c_resource_name : option string;
  c_name : option string;
  c_advertising_channel_type : option enum_value;
  c_status : option enum_value;
  c_campaign_budget : option string;
  c_network_settings : option NetworkSettings }.

Record AdGroup := mkAdGroup {
  ag_name : option string;
  ag_campaign : option string;
  ag_status : option enum_value;
  ag_cpc_bid_micros : option Z }.

Record AdTextAsset := mkAdTextAsset { text : string }.

Record ResponsiveSearchAdInfo := mkResponsiveSearchAdInfo {
  headlines : list AdTextAsset;
  descriptions : list AdTextAsset;
  path1 : option string;
  path2 : option string }.

Record Ad := mkAd {
  final_urls : list string;
  responsive_search_ad : ResponsiveSearchAdInfo }.

Record AdGroupAd := mkAdGroupAd {
  aga_ad_group : option string;
  aga_status : option enum_value;
  aga_ad : Ad }.

Record KeywordInfo := mkKeywordInfo {
  kw_text : option string;
  kw_match_type : option enum_value }.

Record AdGroupCriterion := mkAdGroupCriterion {
  agc_ad_group : option string;
  agc_status : option enum_value;
  agc_keyword : KeywordInfo;
  agc_cpc_bid_micros : option Z }.

(** A [MutateOperation] with the member of its [operation] oneof that the
    tool filled in; an update carries its field mask ([update_mask.paths]). *)
Inductive MutateOperation :=
| CampaignBudgetCreate (b : CampaignBudget)
| CampaignBudgetUpdate (b : CampaignBudget) (update_mask : list string)
| CampaignCreate (c : Campaign)
| CampaignUpdate (c : Campaign) (update_mask : list string)
| AdGroupCreate (g : AdGroup)
| AdGroupAdCreate (a : AdGroupAd)
| AdGroupCriterionCreate (c : AdGroupCriterion).

(** One entry of [response.mutate_operation_responses], with the resource
    name of the member of its [response] oneof. *)
Inductive MutateOperationResponse :=
| CampaignBudgetResult (resource_name : string)
| CampaignResult (resource_name : string)
| AdGroupResult (resource_name : string)
| AdGroupAdResult (resource_name : string)
| AdGroupCriterionResult (resource_name : string).

Definition MutateResponse := list MutateOperationResponse.

(** Reading a member of the oneof that is not the one set gives an empty
    message, whose [resource_name] is the empty string. *)
Definition campaign_budget_result (r : MutateOperationResponse) : string :=
  match r with CampaignBudgetResult n => n | _ => "" end.
Definition campaign_result (r : MutateOperationResponse) : string :=
  match r with CampaignResult n => n | _ => "" end.
Definition ad_group_result (r : MutateOperationResponse) : string :=
  match r with AdGroupResult n => n | _ => "" end.
Definition ad_group_ad_result (r : MutateOperationResponse) : string :=
  match r with AdGroupAdResult n => n | _ => "" end.
Definition ad_group_criterion_result (r : MutateOperationResponse) : string :=
  match r with AdGroupCriterionResult n => n | _ => "" end.

(** A row of a search response: [row.campaign.campaign_budget]. *)
Record GoogleAdsRow := mkGoogleAdsRow { campaign_budget : string }.

(** What iterating over the result of [search_stream] gives: batches of
    rows, until the stream ends or raises. *)
Inductive stream :=
| SEnd
| SBatch (results : list GoogleAdsRow) (rest : stream)
| SRaise (e : exn).

(** ** Calls and the vendor *)

Inductive level := INFO | ERROR.

(** The calls a tool makes to [ads_mcp.utils] and to the services it
    returns. *)
Inductive event :=
| EGetService (name : string)
| EGetType (name : string)
| ELog (l : level) (msg : string)
| ESearchStream (customer_id query : string)
| EMutate (customer_id : string) (mutate_operations : list MutateOperation).

Definition trace := list event.

(** The vendor: what each call does, given the calls made before it.
    [None] in the first two fields means the call returns its object (for
    an enum type, with the enum class read from it).
    [getattr_enum e m] is [getattr] of member [m] on the enum class [e]
    and the assignment of the value to a message field. *)
Record Vendor := mkVendor {
  get_service_raises : trace -> string -> option exn;
  get_type_raises : trace -> string -> option exn;
  getattr_enum : string -> string -> exn + enum_value;
  search_stream_response : trace -> string -> string -> exn + stream;
  mutate_response :
    trace -> string -> list MutateOperation -> exn + MutateResponse }.

(** ** The monad of tool computations *)

(** A computation reads the history of calls and gives the calls it emits
    and either a value or the exception it raises. *)
Definition M (A : Type) : Type := trace -> (exn + A) * trace.

Definition ret {A} (a : A) : M A := fun _ => (inr a, []).

Definition raise {A} (e : exn) : M A := fun _ => (inl e, []).

Definition bind {A B} (m : M A) (f : A -> M B) : M B :=
  fun h =>
    match m h with
    | (inl e, es) => (inl e, es)
    | (inr a, es) =>
        match f a (h ++ es) with
        | (r, es') => (r, es ++ es')
        end
    end.

(** [try: body except GoogleAdsException/Exception as ex: handler ex]. *)
Definition try_except {A} (body : M A) (handler : exn -> M A) : M A :=
  fun h =>
    match body h with
    | (inl e, es) =>
        match handler e (h ++ es) with
        | (r, es') => (r, es ++ es')
        end
    | (inr a, es) => (inr a, es)
    end.

Declare Scope tool_scope.
Delimit Scope tool_scope with tool.
Notation "x <- m ;; k" := (bind m (fun x => k))
  (at level 100, m at next level, right associativity) : tool_scope.
Notation "m ;; k" := (bind m (fun _ => k))
  (at level 100, right associativity) : tool_scope.
Local Open Scope tool_scope.

(** The outcome and the emitted calls of a computation run after [h]. *)
Definition outcome {A} (m : M A) (h : trace) : exn + A := fst (m h).
Definition emitted {A} (m : M A) (h : trace) : trace := snd (m h).

(** A call that returns [a] unless the vendor makes it raise. *)
Definition call {A} (ev : event) (r : trace -> exn + A) : M A :=
  fun h => (r h, [ev]).

Definition of_raises (o : option exn) : exn + unit :=
  match o with
  | Some e => inl e
  | None => inr tt
  end.

Definition lift {A} (r : exn + A) : M A := fun _ => (r, []).

(** ** [_extract_error_details] *)

Definition _extract_error_details (ex : GoogleAdsException) : string :=
  let error_messages :=
    fold_left
      (fun error_messages error =>
         error_messages ++ [error_code error +:+ ": " +:+ message error])
      (failure_errors ex) [] in
  match error_messages with
  | [] => str_GoogleAdsException ex
  | _ :: _ => join "; " error_messages
  end.

(** ** The tools *)

(** The dictionary a tool returns. *)
Abbreviation result := (gmap string pyval).

Definition IndexError : exn := Other "list index out of range".

(** [l[i]] for [i >= 0] and [l[-1]]. *)
Definition getitem {A} (l : list A) (i : nat) : M A :=
  match l !! i with
  | Some x => ret x
  | None => raise IndexError
  end.

Definition getitem_last {A} (l : list A) : M A :=
  match last l with
  | Some x => ret x
  | None => raise IndexError
  end.

Definition nl : string := String (ascii_of_nat 10) EmptyString.

Fixpoint spaces (n : nat) : string :=
  match n with
  | O => EmptyString
  | S n => String " " (spaces n)
  end.

Section Tools.

Variable V : Vendor.

Definition get_googleads_service (name : string) : M unit :=
  call (EGetService name) (fun h => of_raises (get_service_raises V h name)).

Definition get_googleads_type (name : string) : M unit :=
  call (EGetType name) (fun h => of_raises (get_type_raises V h name)).

Definition getattr (enum member : string) : M enum_value :=
  lift (getattr_enum V enum member).

Definition logger_info (msg : string) : M unit :=
  call (ELog INFO msg) (fun _ => inr tt).

Definition logger_error (msg : string) : M unit :=
  call (ELog ERROR msg) (fun _ => inr tt).

Definition search_stream (customer_id query : string) : M stream :=
  call (ESearchStream customer_id query)
       (fun h => search_stream_response V h customer_id query).

Definition mutate (customer_id : string) (ops : list MutateOperation)
  : M MutateResponse :=
  call (EMutate customer_id ops)
       (fun h => mutate_response V h customer_id ops).

(** The two [except] clauses, the same in every tool up to its name. *)
Definition except_clauses (tool : string) (ex : exn) : M result :=
  match ex with
  | GoogleAds ex =>
      let error_detail := _extract_error_details ex in
      logger_error ("ads_mcp." +:+ tool +:+ " failed: " +:+ error_detail);;
      ret {[ "success" := VBool false; "error" := VStr error_detail ]}
  | Other s =>
      logger_error ("ads_mcp." +:+ tool +:+ " unexpected error: " +:+ s);;
      ret {[ "success" := VBool false; "error" := VStr (str (Other s)) ]}
  end.

(** *** [create_campaign] *)

Definition temp_budget_id : Z := (-1)%Z.

Definition create_campaign_body
  (customer_id name : string) (budget_amount_micros : Z)
  (advertising_channel_type status budget_delivery_method : string)
  : M result :=
  get_googleads_service "GoogleAdsService";;
  get_googleads_type "CampaignStatusEnum";;
  get_googleads_type "AdvertisingChannelTypeEnum";;
  get_googleads_type "BudgetDeliveryMethodEnum";;
  get_googleads_type "MutateOperation";;
  delivery_method <- getattr "BudgetDeliveryMethod" budget_delivery_method;;
  let campaign_budget_operation :=
    CampaignBudgetCreate
      {| cb_resource_name :=
           Some ("customers/" +:+ customer_id +:+ "/campaignBudgets/"
                 +:+ str_of_Z temp_budget_id);
         cb_name := Some (name +:+ " Budget");
         cb_amount_micros := Some budget_amount_micros;
         cb_delivery_method := Some delivery_method;
         cb_explicitly_shared := Some false |} in
  get_googleads_type "MutateOperation";;
  channel_type <- getattr "AdvertisingChannelType" advertising_channel_type;;
  campaign_status <- getattr "CampaignStatus" status;;
  let campaign_operation :=
    CampaignCreate
      {| c_resource_name := None;
         c_name := Some name;
         c_advertising_channel_type := Some channel_type;
         c_status := Some campaign_status;
         c_campaign_budget :=
           Some ("customers/" +:+ customer_id +:+ "/campaignBudgets/"
                 +:+ str_of_Z temp_budget_id);
         c_network_settings :=
           if String.eqb advertising_channel_type "SEARCH"
           then Some {| target_google_search := true;
                        target_search_network := true;
                        target_content_network := false;
                        target_partner_search_network := false |}
           else None |} in
  logger_info ("ads_mcp.create_campaign: Creating campaign '" +:+ name
               +:+ "' for customer " +:+ customer_id);;
  response <- mutate customer_id
                     [campaign_budget_operation; campaign_operation];;
  r0 <- getitem response 0;;
  let budget_result := campaign_budget_result r0 in
  r1 <- getitem response 1;;
  let campaign_result := campaign_result r1 in
  campaign_id <- getitem_last (split "/" campaign_result);;
  logger_info ("ads_mcp.create_campaign: Successfully created campaign "
               +:+ campaign_id);;
  ret {[ "success" := VBool true;
         "campaign_resource_name" := VStr campaign_result;
         "campaign_id" := VStr campaign_id;
         "budget_resource_name" := VStr budget_result ]}.

Definition create_campaign
  (customer_id name : string) (budget_amount_micros : Z)
  (advertising_channel_type status budget_delivery_method : string)
  : M result :=
  try_except
    (create_campaign_body customer_id name budget_amount_micros
       advertising_channel_type status budget_delivery_method)
    (except_clauses "create_campaign").

(** *** [create_ad_group] *)

Definition create_ad_group_body
  (customer_id campaign_id name : string) (cpc_bid_micros : Z)
  (status : string) : M result :=
  get_googleads_service "GoogleAdsService";;
  get_googleads_type "AdGroupStatusEnum";;
  get_googleads_type "MutateOperation";;
  ad_group_status <- getattr "AdGroupStatus" status;;
  let mutate_operation :=
    AdGroupCreate
      {| ag_name := Some name;
         ag_campaign :=
           Some ("customers/" +:+ customer_id +:+ "/campaigns/"
                 +:+ campaign_id);
         ag_status := Some ad_group_status;
         ag_cpc_bid_micros := Some cpc_bid_micros |} in
  logger_info ("ads_mcp.create_ad_group: Creating ad group '" +:+ name
               +:+ "' in campaign " +:+ campaign_id);;
  response <- mutate customer_id [mutate_operation];;
  r0 <- getitem response 0;;
  let ad_group_result := ad_group_result r0 in
  ad_group_id <- getitem_last (split "/" ad_group_result);;
  logger_info ("ads_mcp.create_ad_group: Successfully created ad group "
               +:+ ad_group_id);;
  ret {[ "success" := VBool true;
         "ad_group_resource_name" := VStr ad_group_result;
         "ad_group_id" := VStr ad_group_id ]}.

Definition create_ad_group
  (customer_id campaign_id name : string) (cpc_bid_micros : Z)
  (status : string) : M result :=
  try_except
    (create_ad_group_body customer_id campaign_id name cpc_bid_micros status)
    (except_clauses "create_ad_group").

(** *** [create_responsive_search_ad] *)

(** [for t in texts: a = get_googleads_type("AdTextAsset"); a.text = t;
    assets.append(a)], started with [assets] as the list so far. *)
Fixpoint append_assets (texts : list string) (assets : list AdTextAsset)
  : M (list AdTextAsset) :=
  match texts with
  | [] => ret assets
  | t :: rest =>
      get_googleads_type "AdTextAsset";;
      append_assets rest (assets ++ [mkAdTextAsset t])
  end.

Definition create_responsive_search_ad_body
  (customer_id ad_group_id : string)
  (headlines descriptions final_urls : list string)
  (path1 path2 : option string) : M result :=
  if (length headlines <? 3)%nat then
    ret {[ "success" := VBool false;
           "error" :=
             VStr "At least 3 headlines are required for a responsive search ad" ]}
  else if (length descriptions <? 2)%nat then
    ret {[ "success" := VBool false;
           "error" :=
             VStr "At least 2 descriptions are required for a responsive search ad" ]}
  else
    get_googleads_service "GoogleAdsService";;
    get_googleads_type "AdGroupAdStatusEnum";;
    get_googleads_type "MutateOperation";;
    enabled <- getattr "AdGroupAdStatus" "ENABLED";;
    ad_headlines <- append_assets headlines [];;
    ad_descriptions <- append_assets descriptions [];;
    let mutate_operation :=
      AdGroupAdCreate
        {| aga_ad_group :=
             Some ("customers/" +:+ customer_id +:+ "/adGroups/"
                   +:+ ad_group_id);
           aga_status := Some enabled;
           aga_ad :=
             {| final_urls := [] ++ final_urls;
                responsive_search_ad :=
                  {| headlines := ad_headlines;
                     descriptions := ad_descriptions;
                     path1 := if truthy path1 then path1 else None;
                     path2 := if truthy path2 then path2 else None |} |} |} in
    logger_info ("ads_mcp.create_responsive_search_ad: Creating RSA in ad group "
                 +:+ ad_group_id);;
    response <- mutate customer_id [mutate_operation];;
    r0 <- getitem response 0;;
    let ad_group_ad_result := ad_group_ad_result r0 in
    logger_info "ads_mcp.create_responsive_search_ad: Successfully created RSA";;
    ret {[ "success" := VBool true;
           "ad_group_ad_resource_name" := VStr ad_group_ad_result ]}.

Definition create_responsive_search_ad
  (customer_id ad_group_id : string)
  (headlines descriptions final_urls : list string)
  (path1 path2 : option string) : M result :=
  try_except
    (create_responsive_search_ad_body customer_id ad_group_id headlines
       descriptions final_urls path1 path2)
    (except_clauses "create_responsive_search_ad").

(** *** [create_keyword] *)

Definition create_keyword_body
  (customer_id ad_group_id text match_type : string)
  (cpc_bid_micros : option Z) : M result :=
  get_googleads_service "GoogleAdsService";;
  get_googleads_type "KeywordMatchTypeEnum";;
  get_googleads_type "AdGroupCriterionStatusEnum";;
  get_googleads_type "MutateOperation";;
  enabled <- getattr "AdGroupCriterionStatus" "ENABLED";;
  keyword_match_type <- getattr "KeywordMatchType" match_type;;
  let mutate_operation :=
    AdGroupCriterionCreate
      {| agc_ad_group :=
           Some ("customers/" +:+ customer_id +:+ "/adGroups/"
                 +:+ ad_group_id);
         agc_status := Some enabled;
         agc_keyword :=
           {| kw_text := Some text; kw_match_type := Some keyword_match_type |};
         agc_cpc_bid_micros := cpc_bid_micros |} in
  logger_info ("ads_mcp.create_keyword: Creating keyword '" +:+ text
               +:+ "' (" +:+ match_type +:+ ") in ad group " +:+ ad_group_id);;
  response <- mutate customer_id [mutate_operation];;
  r0 <- getitem response 0;;
  let criterion_result := ad_group_criterion_result r0 in
  logger_info "ads_mcp.create_keyword: Successfully created keyword";;
  ret {[ "success" := VBool true;
         "ad_group_criterion_resource_name" := VStr criterion_result ]}.

Definition create_keyword
  (customer_id ad_group_id text match_type : string)
  (cpc_bid_micros : option Z) : M result :=
  try_except
    (create_keyword_body customer_id ad_group_id text match_type
       cpc_bid_micros)
    (except_clauses "create_keyword").

(** *** [update_campaign] *)

Definition budget_query (campaign_id : string) : string :=
  nl +:+ spaces 16 +:+ "SELECT campaign.campaign_budget"
  +:+ nl +:+ spaces 16 +:+ "FROM campaign"
  +:+ nl +:+ spaces 16 +:+ "WHERE campaign.id = " +:+ campaign_id
  +:+ nl +:+ spaces 12.

(** The two nested [for] loops, each left by [break] after its first
    round: the budget of the first row of the first batch, if any.
    Iterating over the stream may raise. *)
Definition first_campaign_budget (search_result : stream)
  : exn + option string :=
  match search_result with
  | SEnd => inr None
  | SRaise e => inl e
  | SBatch results _ =>
      match results with
      | [] => inr None
      | row :: _ => inr (Some (campaign_budget row))
      end
  end.

Definition is_None {A} (o : option A) : bool :=
  match o with
  | None => true
  | Some _ => false
  end.

(** The block under [if budget_amount_micros is not None], from
    [mutate_operations = []] and [budget_updated = False]. *)
Definition budget_update_block
  (customer_id campaign_id : string) (budget_amount_micros : option Z)
  : M (list MutateOperation * bool) :=
  match budget_amount_micros with
  | None => ret ([], false)
  | Some amount =>
      get_googleads_service "GoogleAdsService";;
      search_result <- search_stream customer_id (budget_query campaign_id);;
      budget_resource_name <- lift (first_campaign_budget search_result);;
      if truthy budget_resource_name then
        get_googleads_type "MutateOperation";;
        let budget_operation :=
          CampaignBudgetUpdate
            {| cb_resource_name := budget_resource_name;
               cb_name := None;
               cb_amount_micros := Some amount;
               cb_delivery_method := None;
               cb_explicitly_shared := None |}
            ([] ++ ["amount_micros"]) in
        ret ([] ++ [budget_operation], true)
      else ret ([], false)
  end.

(** The block under [if status is not None or name is not None]. *)
Definition campaign_update_block
  (customer_id campaign_id : string) (status name : option string)
  (mutate_operations : list MutateOperation) : M (list MutateOperation) :=
  if negb (is_None status) || negb (is_None name) then
    get_googleads_type "CampaignStatusEnum";;
    get_googleads_type "MutateOperation";;
    status_update <-
      match status with
      | Some st =>
          v <- getattr "CampaignStatus" st;;
          ret (Some v, [] ++ ["status"])
      | None => ret (None, [])
      end;;
    let '(campaign_status, update_mask_paths) := status_update in
    let update_mask_paths :=
      match name with
      | Some _ => update_mask_paths ++ ["name"]
      | None => update_mask_paths
      end in
    let campaign_operation :=
      CampaignUpdate
        {| c_resource_name :=
             Some ("customers/" +:+ customer_id +:+ "/campaigns/"
                   +:+ campaign_id);
           c_name := name;
           c_advertising_channel_type := None;
           c_status := campaign_status;
           c_campaign_budget := None;
           c_network_settings := None |}
        (fold_left (fun paths path => paths ++ [path]) update_mask_paths [])
    in
    ret (mutate_operations ++ [campaign_operation])
  else ret mutate_operations.

Definition update_campaign_body
  (customer_id campaign_id : string) (status name : option string)
  (budget_amount_micros : option Z) : M result :=
  if is_None status && is_None name && is_None budget_amount_micros then
    ret {[ "success" := VBool false;
           "error" :=
             VStr "At least one field to update must be provided (status, name, or budget_amount_micros)" ]}
  else
    get_googleads_service "GoogleAdsService";;
    budget <- budget_update_block customer_id campaign_id budget_amount_micros;;
    let '(mutate_operations, budget_updated) := budget in
    mutate_operations <-
      campaign_update_block customer_id campaign_id status name
        mutate_operations;;
    match mutate_operations with
    | [] =>
        ret {[ "success" := VBool false;
               "error" := VStr "No valid updates to perform" ]}
    | _ :: _ =>
        logger_info ("ads_mcp.update_campaign: Updating campaign "
                     +:+ campaign_id);;
        mutate customer_id mutate_operations;;
        logger_info ("ads_mcp.update_campaign: Successfully updated campaign "
                     +:+ campaign_id);;
        ret {[ "success" := VBool true;
               "campaign_resource_name" :=
                 VStr ("customers/" +:+ customer_id +:+ "/campaigns/"
                       +:+ campaign_id);
               "budget_updated" := VBool budget_updated ]}
    end.

Definition update_campaign
  (customer_id campaign_id : string) (status name : option string)
  (budget_amount_micros : option Z) : M result :=
  try_except
    (update_campaign_body customer_id campaign_id status name
       budget_amount_micros)
    (except_clauses "update_campaign").

(** *** The tools as one interface *)

Inductive tool_call :=
| CreateCampaign (customer_id name : string) (budget_amount_micros : Z)
    (advertising_channel_type status budget_delivery_method : string)
| CreateAdGroup (customer_id campaign_id name : string) (cpc_bid_micros : Z)
    (status : string)
| CreateResponsiveSearchAd (customer_id ad_group_id : string)
    (headlines descriptions final_urls : list string)
    (path1 path2 : option string)
| CreateKeyword (customer_id ad_group_id text match_type : string)
    (cpc_bid_micros : option Z)
| UpdateCampaign (customer_id campaign_id : string)
    (status name : option string) (budget_amount_micros : option Z).

Definition tool_name (c : tool_call) : string :=
  match c with
  | CreateCampaign _ _ _ _ _ _ => "create_campaign"
  | CreateAdGroup _ _ _ _ _ => "create_ad_group"
  | CreateResponsiveSearchAd _ _ _ _ _ _ _ => "create_responsive_search_ad"
  | CreateKeyword _ _ _ _ _ => "create_keyword"
  | UpdateCampaign _ _ _ _ _ => "update_campaign"
  end.

(** The [try] block of the tool. *)
Definition tool_body (c : tool_call) : M result :=
  match c with
  | CreateCampaign cid n b ch st dm => create_campaign_body cid n b ch st dm
  | CreateAdGroup cid camp n bid st => create_ad_group_body cid camp n bid st
  | CreateResponsiveSearchAd cid ag hs ds us p1 p2 =>
      create_responsive_search_ad_body cid ag hs ds us p1 p2
  | CreateKeyword cid ag t mt bid => create_keyword_body cid ag t mt bid
  | UpdateCampaign cid camp st n b => update_campaign_body cid camp st n b
  end.

Definition run_tool (c : tool_call) : M result :=
  match c with
  | CreateCampaign cid n b ch st dm => create_campaign cid n b ch st dm
  | CreateAdGroup cid camp n bid st => create_ad_group cid camp n bid st
  | CreateResponsiveSearchAd cid ag hs ds us p1 p2 =>
      create_responsive_search_ad cid ag hs ds us p1 p2
  | CreateKeyword cid ag t mt bid => create_keyword cid ag t mt bid
  | UpdateCampaign cid camp st n b => update_campaign cid camp st n b
  end.

End Tools.

(** ** Observations on the emitted calls *)

Definition customer_id_of (c : tool_call) : string :=
  match c with
  | CreateCampaign cid _ _ _ _ _ => cid
  | CreateAdGroup cid _ _ _ _ => cid
  | CreateResponsiveSearchAd cid _ _ _ _ _ _ => cid
  | CreateKeyword cid _ _ _ _ => cid
  | UpdateCampaign cid _ _ _ _ => cid
  end.

Definition as_mutate (ev : event) : option (string * list MutateOperation) :=
  match ev with
  | EMutate cid ops => Some (cid, ops)
  | _ => None
  end.

Definition as_construction (ev : event) : option unit :=
  match ev with
  | EGetType name =>
      if String.eqb name "MutateOperation" then Some tt else None
  | _ => None
  end.

(** The calls to [ga_service.mutate] in a trace, in order. *)
Definition mutate_calls (es : trace) : list (string * list MutateOperation) :=
  omap as_mutate es.

Definition is_service_call (ev : event) : bool :=
  match ev with
  | ESearchStream _ _ | EMutate _ _ => true
  | _ => false
  end.

(** The requests sent to the platform in a trace, queries and mutations,
    in order. *)
Definition service_calls (es : trace) : trace :=
  List.filter is_service_call es.

(** How many [MutateOperation] objects were obtained from the vendor. *)
Definition constructed (es : trace) : nat :=
  length (omap as_construction es).

Definition is_budget_update (op : MutateOperation) : bool :=
  match op with
  | CampaignBudgetUpdate _ _ => true
  | _ => false
  end.

(** The text of one error in [_extract_error_details]. *)
Definition format_error (error : GoogleAdsError) : string :=
  error_code error +:+ ": " +:+ message error.

(** ** Sample vendors *)

Definition demo_members : list string :=
  ["ENABLED"; "PAUSED"; "REMOVED"; "SEARCH"; "DISPLAY"; "STANDARD";
   "ACCELERATED"; "BROAD"; "PHRASE"; "EXACT"].

Definition demo_result (op : MutateOperation) : MutateOperationResponse :=
  match op with
  | CampaignBudgetCreate _ => CampaignBudgetResult "customers/1/campaignBudgets/7"
  | CampaignBudgetUpdate b _ =>
      CampaignBudgetResult (default "" (cb_resource_name b))
  | CampaignCreate _ => CampaignResult "customers/1/campaigns/42"
  | CampaignUpdate c _ => CampaignResult (default "" (c_resource_name c))
  | AdGroupCreate _ => AdGroupResult "customers/1/adGroups/5"
  | AdGroupAdCreate _ => AdGroupAdResult "customers/1/adGroupAds/5~9"
  | AdGroupCriterionCreate _ =>
      AdGroupCriterionResult "customers/1/adGroupCriteria/5~3"
  end.

(** A vendor on which every call goes through. *)
Definition demo_vendor : Vendor :=
  {| get_service_raises := fun _ _ => None;
     get_type_raises := fun _ _ => None;
     getattr_enum := fun _ m =>
       if existsb (String.eqb m) demo_members then inr 2%Z
       else inl (Other m);
     search_stream_response := fun _ _ _ =>
       inr (SBatch [mkGoogleAdsRow "customers/1/campaignBudgets/7"] SEnd);
     mutate_response := fun _ _ ops => inr (map demo_result ops) |}.

(** A vendor whose search finds no row. *)
Definition no_row_vendor : Vendor :=
  {| get_service_raises := get_service_raises demo_vendor;
     get_type_raises := get_type_raises demo_vendor;
     getattr_enum := getattr_enum demo_vendor;
     search_stream_response := fun _ _ _ => inr (SBatch [] SEnd);
     mutate_response := mutate_response demo_vendor |}.

Definition duplicate_name : GoogleAdsException :=
  {| failure_errors :=
       [ {| error_code := "campaign_error: DUPLICATE_CAMPAIGN_NAME";
            message := "A campaign with this name exists." |};
         {| error_code := "range_error: TOO_LOW";
            message := "Too low." |} ];
     str_GoogleAdsException := "GoogleAdsException" |}.

(** A vendor whose [mutate] raises a [GoogleAdsException]. *)
Definition rejecting_vendor : Vendor :=
  {| get_service_raises := get_service_raises demo_vendor;
     get_type_raises := get_type_raises demo_vendor;
     getattr_enum := getattr_enum demo_vendor;
     search_stream_response := search_stream_response demo_vendor;
     mutate_response := fun _ _ _ => inl (GoogleAds duplicate_name) |}.

(** Sample calls. *)
Definition demo_update : tool_call :=
  UpdateCampaign "1" "42" (Some "PAUSED") (Some "Spring") (Some 7000000%Z).

Definition demo_campaign_update : MutateOperation :=
  CampaignUpdate
    {| c_resource_name := Some "customers/1/campaigns/42";
       c_name := Some "Spring";
       c_advertising_channel_type := None;
       c_status := Some 2%Z;
       c_campaign_budget := None;
       c_network_settings := None |}
    ["status"; "name"].

Definition demo_budget_update : MutateOperation :=
  CampaignBudgetUpdate
    {| cb_resource_name := Some "customers/1/campaignBudgets/7";
       cb_name := None;
       cb_amount_micros := Some 7000000%Z;
       cb_delivery_method := None;
       cb_explicitly_shared := None |}
    ["amount_micros"].

(** ** Reasoning about computations *)

(** [wp m h Q]: run after the history [h], the computation [m] has an
    outcome and emits calls that satisfy [Q]. *)
Definition wp {A} (m : M A) (h : trace) (Q : exn + A -> trace -> Prop)
  : Prop :=
  Q (outcome m h) (emitted m h).

(** The calls that a loop of [append_assets] emits in [n] rounds. *)
Definition asset_gets (n : nat) : trace := repeat (EGetType "AdTextAsset") n.

(** The error dictionary of the [except] clause that catches [e]. *)
Definition error_of (e : exn) : string :=
  match e with
  | GoogleAds ex => _extract_error_details ex
  | Other _ => str e
  end.

(** ** Shapes used in the statements *)

(** The operations a tool may put in its request. *)
Definition request_shape (c : tool_call) (ops : list MutateOperation)
  : Prop :=
  match c with
  | CreateCampaign _ _ _ _ _ _ =>
      exists b c, ops = [CampaignBudgetCreate b; CampaignCreate c]
  | CreateAdGroup _ _ _ _ _ => exists g, ops = [AdGroupCreate g]
  | CreateResponsiveSearchAd _ _ _ _ _ _ _ =>
      exists a, ops = [AdGroupAdCreate a]
  | CreateKeyword _ _ _ _ _ => exists k, ops = [AdGroupCriterionCreate k]
  | UpdateCampaign _ _ _ _ _ =>
      (exists b bm c cm,
          ops = [CampaignBudgetUpdate b bm; CampaignUpdate c cm])
      \/ (exists b bm, ops = [CampaignBudgetUpdate b bm])
      \/ (exists c cm, ops = [CampaignUpdate c cm])
  end.

(** The name of a field, when the caller gave a value for it. *)
Definition provided {A} (field : string) (o : option A) : list string :=
  match o with
  | Some _ => [field]
  | None => []
  end.

(** The uniform shape of a result: a boolean [success]; an [error], which
    is a string, exactly when [success] is false; and then no other key. *)
Definition uniform_result (r : result) : Prop :=
  exists success : bool,
    r !! "success" = Some (VBool success)
    /\ (is_Some (r !! "error") <-> success = false)
    /\ (forall v, r !! "error" = Some v -> exists s, v = VStr s)
    /\ (success = false ->
        forall k, is_Some (r !! k) -> k = "success" \/ k = "error").

(** ** Further observations and sample inputs *)

(** Whether the character [c] occurs in [s]. *)
Fixpoint contains (c : ascii) (s : string) : bool :=
  match s with
  | EmptyString => false
  | String a rest => Ascii.eqb a c || contains c rest
  end.

Definition as_error_log (ev : event) : option string :=
  match ev with
  | ELog ERROR msg => Some msg
  | _ => None
  end.

(** The messages logged at level ERROR in a trace, in order. *)
Definition error_logs (es : trace) : list string := omap as_error_log es.

(** The four tools that create a resource. *)
Definition is_create (c : tool_call) : bool :=
  match c with
  | UpdateCampaign _ _ _ _ _ => false
  | _ => true
  end.

(** The members a tool reads from the enum classes of the vendor, in the
    order of the source. *)
Definition enum_lookups (c : tool_call) : list (string * string) :=
  match c with
  | CreateCampaign _ _ _ channel_type status delivery_method =>
      [("BudgetDeliveryMethod", delivery_method);
       ("AdvertisingChannelType", channel_type);
       ("CampaignStatus", status)]
  | CreateAdGroup _ _ _ _ status => [("AdGroupStatus", status)]
  | CreateResponsiveSearchAd _ _ _ _ _ _ _ =>
      [("AdGroupAdStatus", "ENABLED")]
  | CreateKeyword _ _ _ match_type _ =>
      [("AdGroupCriterionStatus", "ENABLED");
       ("KeywordMatchType", match_type)]
  | UpdateCampaign _ _ status _ _ =>
      match status with
      | Some st => [("CampaignStatus", st)]
      | None => []
      end
  end.

(** The keys of the dictionary a tool returns on success. *)
Definition success_keys (c : tool_call) : gset string :=
  match c with
  | CreateCampaign _ _ _ _ _ _ =>
      {[ "success"; "campaign_resource_name"; "campaign_id";
         "budget_resource_name" ]}
  | CreateAdGroup _ _ _ _ _ =>
      {[ "success"; "ad_group_resource_name"; "ad_group_id" ]}
  | CreateResponsiveSearchAd _ _ _ _ _ _ _ =>
      {[ "success"; "ad_group_ad_resource_name" ]}
  | CreateKeyword _ _ _ _ _ =>
      {[ "success"; "ad_group_criterion_resource_name" ]}
  | UpdateCampaign _ _ _ _ _ =>
      {[ "success"; "campaign_resource_name"; "budget_updated" ]}
  end.

(** How many entries of [response.mutate_operation_responses] a tool
    reads: indices 0 and 1 in [create_campaign], index 0 in the other
    tools that create, none in [update_campaign]. *)
Definition entries_read (c : tool_call) : nat :=
  match c with
  | CreateCampaign _ _ _ _ _ _ => 2
  | UpdateCampaign _ _ _ _ _ => 0
  | _ => 1
  end.

(** A vendor that accepts every request and answers with no entry. *)
Definition terse_vendor : Vendor :=
  {| get_service_raises := get_service_raises demo_vendor;
     get_type_raises := get_type_raises demo_vendor;
     getattr_enum := getattr_enum demo_vendor;
     search_stream_response := search_stream_response demo_vendor;
     mutate_response := fun _ _ _ => inr [] |}.

Definition demo_create_campaign : tool_call :=
  CreateCampaign "1" "Spring" 5000000 "SEARCH" "PAUSED" "STANDARD".

Definition demo_create_ad_group : tool_call :=
  CreateAdGroup "1" "42" "Shoes" 1000000 "ENABLED".

Definition demo_campaign_result : result :=
  {[ "success" := VBool true;
     "campaign_resource_name" := VStr "customers/1/campaigns/42";
     "campaign_id" := VStr "42";
     "budget_resource_name" := VStr "customers/1/campaignBudgets/7" ]}.

Definition demo_ad_group_result : result :=
  {[ "success" := VBool true;
     "ad_group_resource_name" := VStr "customers/1/adGroups/5";
     "ad_group_id" := VStr "5" ]}.

Definition demo_update_result : result :=
  {[ "success" := VBool true;
     "campaign_resource_name" := VStr "customers/1/campaigns/42";
     "budget_updated" := VBool true ]}.

Definition demo_ad_group : AdGroup :=
  {| ag_name := Some "Shoes";
     ag_campaign := Some "customers/1/campaigns/42";
     ag_status := Some 2%Z;
     ag_cpc_bid_micros := Some 1000000%Z |}.

(** * Properties *)

(** ** [_extract_error_details] *)

Lemma fold_append_map {A B} (f : A -> B) (l : list A) (acc : list B) :
  fold_left (fun acc x => acc ++ [f x]) l acc = acc ++ map f l.
Proof.
  revert acc. induction l as [|x l IH]; intros acc; simpl.
  - now rewrite app_nil_r.
  - rewrite IH, <- app_assoc. reflexivity.
Qed.

(** C9: [_extract_error_details] gives the texts "code: message" of the
    errors of the exception, in the order of the list, joined by "; "; for
    an exception without errors it gives [str(ex)]. *)
Theorem extract_error_details_spec (ex : GoogleAdsException) :
  _extract_error_details ex =
    match failure_errors ex with
    | [] => str (GoogleAds ex)
    | _ :: _ => join "; " (map format_error (failure_errors ex))
    end.
Proof.
  unfold _extract_error_details.
  change (fun (error_messages : list string) (error : GoogleAdsError) =>
            error_messages ++ [error_code error +:+ ": " +:+ message error])
    with (fun (acc : list string) (x : GoogleAdsError) =>
            acc ++ [format_error x]).
  rewrite fold_append_map. simpl.
  destruct (failure_errors ex); reflexivity.
Qed.

Example extract_error_details_two :
  _extract_error_details duplicate_name =
    "campaign_error: DUPLICATE_CAMPAIGN_NAME: A campaign with this name exists.; range_error: TOO_LOW: Too low.".
Proof. reflexivity. Qed.

Example extract_error_details_none :
  _extract_error_details (mkGoogleAdsException [] "Request failed") =
    "Request failed".
Proof. reflexivity. Qed.

(** ** Local validation *)

(** C3: with fewer than 3 headlines, and with at least 3 headlines but fewer
    than 2 descriptions, [create_responsive_search_ad] returns its error
    dictionary and makes no call to the vendor at all. *)
Theorem create_responsive_search_ad_too_few
  (V : Vendor) (customer_id ad_group_id : string)
  (hs ds urls : list string) (p1 p2 : option string) (h : trace) :
  (length hs < 3 ->
   create_responsive_search_ad V customer_id ad_group_id hs ds urls p1 p2 h =
     (inr {[ "success" := VBool false;
             "error" :=
               VStr "At least 3 headlines are required for a responsive search ad" ]},
      []))
  /\ (3 <= length hs -> length ds < 2 ->
      create_responsive_search_ad V customer_id ad_group_id hs ds urls p1 p2 h =
        (inr {[ "success" := VBool false;
                "error" :=
                  VStr "At least 2 descriptions are required for a responsive search ad" ]},
         [])).
Proof.
  unfold create_responsive_search_ad, create_responsive_search_ad_body,
    try_except.
  split.
  - intros Hh. apply Nat.ltb_lt in Hh. rewrite Hh. reflexivity.
  - intros Hh Hd. apply Nat.ltb_ge in Hh. apply Nat.ltb_lt in Hd.
    rewrite Hh, Hd. reflexivity.
Qed.

Lemma create_responsive_search_ad_too_few_witness :
  create_responsive_search_ad demo_vendor "1" "5" ["a"; "b"] [] [] None None []
    = (inr {[ "success" := VBool false;
              "error" :=
                VStr "At least 3 headlines are required for a responsive search ad" ]},
       [])
  /\ create_responsive_search_ad demo_vendor "1" "5" ["a"; "b"; "c"] ["d"] []
       None None []
     = (inr {[ "success" := VBool false;
               "error" :=
                 VStr "At least 2 descriptions are required for a responsive search ad" ]},
        []).
Proof.
  split.
  - apply (proj1 (create_responsive_search_ad_too_few demo_vendor "1" "5"
                    ["a"; "b"] [] [] None None [])).
    simpl. lia.
  - apply (proj2 (create_responsive_search_ad_too_few demo_vendor "1" "5"
                    ["a"; "b"; "c"] ["d"] [] None None [])); simpl; lia.
Defined.

(** C4: with [status], [name] and [budget_amount_micros] all [None],
    [update_campaign] returns its error dictionary and makes no call to the
    vendor: no query and no mutation. *)
Theorem update_campaign_nothing_to_update
  (V : Vendor) (customer_id campaign_id : string) (h : trace) :
  update_campaign V customer_id campaign_id None None None h =
    (inr {[ "success" := VBool false;
            "error" :=
              VStr "At least one field to update must be provided (status, name, or budget_amount_micros)" ]},
     []).
Proof.
  unfold update_campaign, update_campaign_body, try_except.
  cbn [is_None andb]. unfold ret. reflexivity.
Qed.

(** ** Rules for [wp] *)

Section WP.

Context {A B : Type}.

Lemma wp_ret (a : A) h (Q : exn + A -> trace -> Prop) :
  Q (inr a) [] -> wp (ret a) h Q.
Proof. exact id. Qed.

Lemma wp_raise (e : exn) h (Q : exn + A -> trace -> Prop) :
  Q (inl e) [] -> wp (raise e) h Q.
Proof. exact id. Qed.

Lemma wp_lift (r : exn + A) h (Q : exn + A -> trace -> Prop) :
  Q r [] -> wp (lift r) h Q.
Proof. exact id. Qed.

Lemma wp_call (ev : event) (r : trace -> exn + A) h
  (Q : exn + A -> trace -> Prop) :
  Q (r h) [ev] -> wp (call ev r) h Q.
Proof. exact id. Qed.

Lemma wp_bind (m : M A) (f : A -> M B) h (Q : exn + B -> trace -> Prop) :
  wp m h (fun r es =>
            match r with
            | inl e => Q (inl e) es
            | inr a => wp (f a) (h ++ es) (fun r' es' => Q r' (es ++ es'))
            end) ->
  wp (bind m f) h Q.
Proof.
  unfold wp, outcome, emitted, bind.
  destruct (m h) as [[e|a] es]; simpl; auto.
  destruct (f a (h ++ es)); auto.
Qed.

Lemma wp_try_except (body : M A) (handler : exn -> M A) h
  (Q : exn + A -> trace -> Prop) :
  wp body h (fun r es =>
               match r with
               | inl e =>
                   wp (handler e) (h ++ es) (fun r' es' => Q r' (es ++ es'))
               | inr a => Q (inr a) es
               end) ->
  wp (try_except body handler) h Q.
Proof.
  unfold wp, outcome, emitted, try_except.
  destruct (body h) as [[e|a] es]; simpl; auto.
  destruct (handler e (h ++ es)); auto.
Qed.

Lemma wp_elim (m : M A) h (Q : exn + A -> trace -> Prop) :
  wp m h Q -> Q (outcome m h) (emitted m h).
Proof. exact id. Qed.

End WP.

(** Turn a goal about the outcome and the emitted calls of a computation
    into a [wp] goal. *)
Ltac wp_start :=
  cbv zeta;
  lazymatch goal with
  | |- context [emitted ?m ?h] =>
      pattern (outcome m h), (emitted m h); apply wp_elim
  | |- context [outcome ?m ?h] =>
      pattern (outcome m h), (emitted m h); apply wp_elim
  end.

(** One step of a computation: the rule for its head, or the two cases
    of a call that the vendor answers. *)
Ltac wp_head0 :=
  lazymatch goal with
  | |- wp (bind _ _) _ _ => apply wp_bind
  | |- wp (try_except _ _) _ _ => apply wp_try_except
  | |- wp (ret _) _ _ => apply wp_ret
  | |- wp (raise _) _ _ => apply wp_raise
  | |- wp (lift _) _ _ => apply wp_lift
  | |- wp (call _ _) _ _ => apply wp_call
  | |- wp (get_googleads_service _ _) _ _ => unfold get_googleads_service
  | |- wp (get_googleads_type _ _) _ _ => unfold get_googleads_type
  | |- wp (getattr _ _ _) _ _ => unfold getattr
  | |- wp (logger_info _) _ _ => unfold logger_info
  | |- wp (logger_error _) _ _ => unfold logger_error
  | |- wp (search_stream _ _ _) _ _ => unfold search_stream
  | |- wp (mutate _ _ _) _ _ => unfold mutate
  | |- wp (getitem _ _) _ _ => unfold getitem
  | |- wp (getitem_last _) _ _ => unfold getitem_last
  | |- wp (except_clauses _ _) _ _ => unfold except_clauses
  | |- wp (if ?b then _ else _) _ _ => destruct b eqn:?
  | |- wp (match ?x with _ => _ end) _ _ => destruct x eqn:?
  | |- wp (let '(_, _) := ?x in _) _ _ => destruct x eqn:?
  | |- match of_raises ?o with _ => _ end =>
      destruct o eqn:?; cbn [of_raises]
  | |- match ?x with _ => _ end => destruct x eqn:?
  end; cbv beta; cbn [is_None negb orb andb app].

(** ** The loops over headlines and descriptions *)

Lemma wp_append_assets (V : Vendor) (ts : list string) :
  forall assets h (Q : exn + list AdTextAsset -> trace -> Prop),
    (forall n e, Q (inl e) (asset_gets n)) ->
    Q (inr (assets ++ map mkAdTextAsset ts)) (asset_gets (length ts)) ->
    wp (append_assets V ts assets) h Q.
Proof.
  induction ts as [|t ts IH]; intros assets h Q Hraise Hret.
  - simpl. apply wp_ret. rewrite app_nil_r in Hret. exact Hret.
  - simpl append_assets. repeat wp_head0.
    + apply (Hraise 1).
    + apply IH.
      * intros n e'. apply (Hraise (S n)).
      * rewrite <- app_assoc. exact Hret.
Qed.

Lemma append_assets_returns (V : Vendor) (ts : list string) :
  (forall h, get_type_raises V h "AdTextAsset" = None) ->
  forall assets h,
    append_assets V ts assets h =
      (inr (assets ++ map mkAdTextAsset ts), asset_gets (length ts)).
Proof.
  intros Hok. induction ts as [|t ts IH]; intros assets h.
  - simpl. unfold ret. now rewrite app_nil_r.
  - simpl append_assets. unfold bind, get_googleads_type, call.
    rewrite Hok. cbn [of_raises]. rewrite IH, <- app_assoc. reflexivity.
Qed.

Lemma wp_append_assets_returns (V : Vendor) (ts : list string) assets h
  (Q : exn + list AdTextAsset -> trace -> Prop) :
  (forall h, get_type_raises V h "AdTextAsset" = None) ->
  Q (inr (assets ++ map mkAdTextAsset ts)) (asset_gets (length ts)) ->
  wp (append_assets V ts assets) h Q.
Proof.
  intros Hok HQ. unfold wp, outcome, emitted.
  rewrite append_assets_returns by exact Hok. exact HQ.
Qed.

Ltac wp_head :=
  lazymatch goal with
  | |- wp (append_assets _ _ _) _ _ =>
      apply wp_append_assets; [intros ? ?|]
  | _ => wp_head0
  end.

Ltac wp_run := repeat wp_head.

(** ** Observations of a trace *)

Lemma mutate_calls_app es es' :
  mutate_calls (es ++ es') = mutate_calls es ++ mutate_calls es'.
Proof. apply omap_app. Qed.

Lemma constructed_app es es' :
  constructed (es ++ es') = constructed es + constructed es'.
Proof. unfold constructed. rewrite omap_app. apply length_app. Qed.

Lemma mutate_calls_asset_gets n : omap as_mutate (asset_gets n) = [].
Proof. induction n; auto. Qed.

Lemma constructed_asset_gets n : omap as_construction (asset_gets n) = [].
Proof. induction n; auto. Qed.

Lemma service_calls_asset_gets n :
  List.filter is_service_call (asset_gets n) = [].
Proof. induction n; auto. Qed.

Lemma mutate_calls_skip_asset_gets n es :
  omap as_mutate (asset_gets n ++ es) = omap as_mutate es.
Proof. now rewrite omap_app, mutate_calls_asset_gets. Qed.

Lemma constructed_skip_asset_gets n es :
  omap as_construction (asset_gets n ++ es) = omap as_construction es.
Proof. now rewrite omap_app, constructed_asset_gets. Qed.

Lemma service_calls_skip_asset_gets n es :
  List.filter is_service_call (asset_gets n ++ es) =
    List.filter is_service_call es.
Proof. now rewrite List.filter_app, service_calls_asset_gets. Qed.

(** Evaluate the observations on a trace that is known up to the rounds of
    the loops. *)
Ltac obs :=
  repeat first
    [ progress cbn [app mutate_calls constructed service_calls
                    omap list_omap List.filter
                    as_mutate as_construction is_service_call
                    String.eqb Ascii.eqb Bool.eqb length Nat.add]
    | rewrite <- app_assoc
    | rewrite mutate_calls_skip_asset_gets
    | rewrite constructed_skip_asset_gets
    | rewrite service_calls_skip_asset_gets
    | rewrite mutate_calls_asset_gets
    | rewrite constructed_asset_gets
    | rewrite service_calls_asset_gets ].

(** ** Exceptions *)

Lemma run_tool_try_except (V : Vendor) (c : tool_call) :
  run_tool V c = try_except (tool_body V c) (except_clauses (tool_name c)).
Proof. destruct c; reflexivity. Qed.

Lemma outcome_try_except {A} (body : M A) (handler : exn -> M A) h :
  outcome (try_except body handler) h =
    match outcome body h with
    | inl e => outcome (handler e) (h ++ emitted body h)
    | inr a => inr a
    end.
Proof.
  unfold outcome, emitted, try_except.
  destruct (body h) as [[e|a] es]; simpl; auto.
  destruct (handler e (h ++ es)); auto.
Qed.

Lemma outcome_except_clauses (tool : string) (e : exn) h :
  outcome (except_clauses tool e) h =
    inr {[ "success" := VBool false; "error" := VStr (error_of e) ]}.
Proof. destruct e; reflexivity. Qed.

(** C2: when the [try] block of a tool raises a [GoogleAdsException], the
    tool returns the dictionary with [success] false and the text of
    [_extract_error_details] as [error]; when it raises any other exception,
    the dictionary with [success] false and [str(ex)] as [error]; and a tool
    always returns a dictionary: it never raises. *)
Theorem tools_catch_exceptions (V : Vendor) (c : tool_call) (h : trace) :
  (exists r, outcome (run_tool V c) h = inr r)
  /\ match outcome (tool_body V c) h with
     | inl (GoogleAds ex) =>
         outcome (run_tool V c) h =
           inr {[ "success" := VBool false;
                  "error" := VStr (_extract_error_details ex) ]}
     | inl (Other s) =>
         outcome (run_tool V c) h =
           inr {[ "success" := VBool false;
                  "error" := VStr (str (Other s)) ]}
     | inr r => outcome (run_tool V c) h = inr r
     end.
Proof.
  rewrite run_tool_try_except, outcome_try_except.
  destruct (outcome (tool_body V c) h) as [e|r].
  - rewrite outcome_except_clauses. split; [eauto|].
    destruct e; reflexivity.
  - split; [eauto | reflexivity].
Qed.

Example create_campaign_rejected :
  outcome (create_campaign rejecting_vendor "1" "Spring" 5000000 "SEARCH"
             "PAUSED" "STANDARD") [] =
    inr {[ "success" := VBool false;
           "error" :=
             VStr "campaign_error: DUPLICATE_CAMPAIGN_NAME: A campaign with this name exists.; range_error: TOO_LOW: Too low." ]}.
Proof. vm_compute. reflexivity. Qed.

(** ** Submission *)

(** C5: when [create_campaign] reaches the call to [mutate], the request
    holds exactly two operations, the creation of the budget and then the
    creation of the campaign; the budget has the temporary resource name
    "customers/{customer_id}/campaignBudgets/-1", the name "{name} Budget",
    the given amount and [explicitly_shared] false, and [campaign_budget] of
    the campaign is that same temporary resource name. *)
Theorem create_campaign_request
  (V : Vendor) (customer_id name : string) (budget_amount_micros : Z)
  (advertising_channel_type status budget_delivery_method : string)
  (h : trace) :
  let es :=
    emitted (create_campaign V customer_id name budget_amount_micros
               advertising_channel_type status budget_delivery_method) h in
  mutate_calls es <> [] ->
  exists delivery_method channel_type campaign_status network_settings,
    mutate_calls es =
      [(customer_id,
        [CampaignBudgetCreate
           {| cb_resource_name :=
                Some ("customers/" +:+ customer_id +:+ "/campaignBudgets/-1");
              cb_name := Some (name +:+ " Budget");
              cb_amount_micros := Some budget_amount_micros;
              cb_delivery_method := Some delivery_method;
              cb_explicitly_shared := Some false |};
         CampaignCreate
           {| c_resource_name := None;
              c_name := Some name;
              c_advertising_channel_type := Some channel_type;
              c_status := Some campaign_status;
              c_campaign_budget :=
                Some ("customers/" +:+ customer_id +:+ "/campaignBudgets/-1");
              c_network_settings := network_settings |}])].
Proof.
  wp_start.
  unfold create_campaign, create_campaign_body.
  wp_run; obs; try congruence; intros _; eauto 6.
Qed.

Lemma create_campaign_request_witness :
  exists delivery_method channel_type campaign_status network_settings,
    mutate_calls
      (emitted (create_campaign demo_vendor "1" "Spring" 5000000 "SEARCH"
                  "PAUSED" "STANDARD") []) =
      [("1",
        [CampaignBudgetCreate
           {| cb_resource_name := Some ("customers/" +:+ "1" +:+ "/campaignBudgets/-1");
              cb_name := Some ("Spring" +:+ " Budget");
              cb_amount_micros := Some 5000000%Z;
              cb_delivery_method := Some delivery_method;
              cb_explicitly_shared := Some false |};
         CampaignCreate
           {| c_resource_name := None;
              c_name := Some "Spring";
              c_advertising_channel_type := Some channel_type;
              c_status := Some campaign_status;
              c_campaign_budget := Some ("customers/" +:+ "1" +:+ "/campaignBudgets/-1");
              c_network_settings := network_settings |}])].
Proof.
  apply (create_campaign_request demo_vendor "1" "Spring" 5000000 "SEARCH"
           "PAUSED" "STANDARD" []).
  vm_compute. discriminate.
Defined.

Lemma emitted_try_except {A} (body : M A) (handler : exn -> M A) h :
  emitted (try_except body handler) h =
    emitted body h ++
    match outcome body h with
    | inl e => emitted (handler e) (h ++ emitted body h)
    | inr _ => []
    end.
Proof.
  unfold outcome, emitted, try_except.
  destruct (body h) as [[e|a] es]; simpl.
  - destruct (handler e (h ++ es)); reflexivity.
  - now rewrite app_nil_r.
Qed.

Lemma mutate_calls_run_tool (V : Vendor) (c : tool_call) h :
  mutate_calls (emitted (run_tool V c) h) =
    mutate_calls (emitted (tool_body V c) h).
Proof.
  rewrite run_tool_try_except, emitted_try_except, mutate_calls_app.
  destruct (outcome (tool_body V c) h) as [[ex|s]|r]; simpl;
    now rewrite app_nil_r.
Qed.

(** C1: when a tool reaches the call to [mutate], that call is the only
    one, it goes to the customer of the invocation, and it carries every
    [MutateOperation] the tool obtained: [create_campaign] sends the budget
    and the campaign together, [update_campaign] the budget update and the
    campaign update together. *)
Theorem single_mutate_call (V : Vendor) (c : tool_call) (h : trace) :
  mutate_calls (emitted (run_tool V c) h) <> [] ->
  exists ops,
    mutate_calls (emitted (run_tool V c) h) = [(customer_id_of c, ops)]
    /\ length ops = constructed (emitted (run_tool V c) h)
    /\ request_shape c ops.
Proof.
  wp_start.
  destruct c; cbn [run_tool customer_id_of request_shape].
  - unfold create_campaign, create_campaign_body.
    wp_run; obs; try congruence; intros _; eauto 10.
  - unfold create_ad_group, create_ad_group_body.
    wp_run; obs; try congruence; intros _; eauto 10.
  - unfold create_responsive_search_ad, create_responsive_search_ad_body.
    wp_run; obs; try congruence; intros _; eauto 10.
  - unfold create_keyword, create_keyword_body.
    wp_run; obs; try congruence; intros _; eauto 10.
  - unfold update_campaign, update_campaign_body, budget_update_block,
      campaign_update_block.
    wp_run; obs; try congruence; intros _; eauto 10.
Qed.

Lemma single_mutate_call_witness :
  exists ops,
    mutate_calls (emitted (run_tool demo_vendor demo_update) []) =
      [("1", ops)]
    /\ length ops = constructed (emitted (run_tool demo_vendor demo_update) [])
    /\ request_shape demo_update ops.
Proof.
  apply (single_mutate_call demo_vendor demo_update []).
  vm_compute. discriminate.
Defined.

Example update_campaign_one_request :
  mutate_calls (emitted (run_tool demo_vendor demo_update) []) =
    [("1", [demo_budget_update; demo_campaign_update])].
Proof. vm_compute. reflexivity. Qed.

(** C8: with at least 3 headlines and 2 descriptions nothing else in the
    input is checked.  Either the request is sent, or a call to the vendor
    raised before it; and on a vendor whose calls return, the request is
    sent whatever the texts, the lengths of the lists, the URLs and the
    paths are.  The request holds the headlines and the descriptions in the
    order of the input, and [path2] whenever it is truthy, also when
    [path1] is [None]. *)
Theorem create_responsive_search_ad_submits
  (V : Vendor) (customer_id ad_group_id : string)
  (hs ds urls : list string) (p1 p2 : option string) (h : trace) :
  3 <= length hs -> 2 <= length ds ->
  let operation enabled :=
    AdGroupAdCreate
      {| aga_ad_group :=
           Some ("customers/" +:+ customer_id +:+ "/adGroups/"
                 +:+ ad_group_id);
         aga_status := Some enabled;
         aga_ad :=
           {| final_urls := urls;
              responsive_search_ad :=
                {| headlines := map mkAdTextAsset hs;
                   descriptions := map mkAdTextAsset ds;
                   path1 := if truthy p1 then p1 else None;
                   path2 := if truthy p2 then p2 else None |} |} |} in
  let body :=
    create_responsive_search_ad_body V customer_id ad_group_id hs ds urls
      p1 p2 in
  let run :=
    create_responsive_search_ad V customer_id ad_group_id hs ds urls p1 p2 in
  ((exists enabled,
       mutate_calls (emitted run h) = [(customer_id, [operation enabled])])
   \/ (mutate_calls (emitted run h) = []
       /\ exists e, outcome body h = inl e))
  /\ (forall enabled,
        (forall h' n, get_service_raises V h' n = None) ->
        (forall h' n, get_type_raises V h' n = None) ->
        getattr_enum V "AdGroupAdStatus" "ENABLED" = inr enabled ->
        mutate_calls (emitted run h) = [(customer_id, [operation enabled])]).
Proof.
  intros Hhs Hds. apply Nat.ltb_ge in Hhs, Hds. cbv zeta. split.
  - change (create_responsive_search_ad V customer_id ad_group_id hs ds urls
              p1 p2)
      with (run_tool V (CreateResponsiveSearchAd customer_id ad_group_id hs
                          ds urls p1 p2)).
    rewrite mutate_calls_run_tool. cbn [tool_body].
    wp_start. unfold create_responsive_search_ad_body. rewrite Hhs, Hds.
    wp_run; obs; eauto.
  - intros enabled Hservice Htype Henabled.
    wp_start.
    unfold create_responsive_search_ad, create_responsive_search_ad_body.
    rewrite Hhs, Hds.
    repeat (first [ apply wp_append_assets_returns; [intros; apply Htype|]
                  | wp_head0 ];
            try match goal with
                | E : get_service_raises _ _ _ = Some _ |- _ =>
                    rewrite Hservice in E; discriminate
                | E : get_type_raises _ _ _ = Some _ |- _ =>
                    rewrite Htype in E; discriminate
                | E : inl _ = inr _ |- _ => discriminate E
                end).
    all: obs; congruence.
Qed.

Lemma create_responsive_search_ad_submits_witness :
  mutate_calls
    (emitted (create_responsive_search_ad demo_vendor "1" "5"
                ["h1"; "h2"; "h3"] ["d1"; "d2"] ["not a url"] None
                (Some "deals")) []) =
    [("1",
      [AdGroupAdCreate
         {| aga_ad_group := Some ("customers/" +:+ "1" +:+ "/adGroups/" +:+ "5");
            aga_status := Some 2%Z;
            aga_ad :=
              {| final_urls := ["not a url"];
                 responsive_search_ad :=
                   {| headlines := map mkAdTextAsset ["h1"; "h2"; "h3"];
                      descriptions := map mkAdTextAsset ["d1"; "d2"];
                      path1 := if truthy None then None else None;
                      path2 :=
                        if truthy (Some "deals") then Some "deals"
                        else None |} |} |}])].
Proof.
  refine (proj2 (create_responsive_search_ad_submits demo_vendor "1" "5"
                   ["h1"; "h2"; "h3"] ["d1"; "d2"] ["not a url"] None
                   (Some "deals") [] _ _) 2%Z _ _ _).
  - simpl. lia.
  - simpl. lia.
  - intros h' n. reflexivity.
  - intros h' n. reflexivity.
  - reflexivity.
Defined.

(** ** The shape of the results *)

Lemma uniform_error (s : string) :
  uniform_result {[ "success" := VBool false; "error" := VStr s ]}.
Proof.
  exists false. split; [reflexivity|]. split; [|split].
  - split; [reflexivity|]. intros _. exists (VStr s). reflexivity.
  - intros v Hv. exists s. vm_compute in Hv. congruence.
  - intros _ k [v Hk].
    destruct (decide (k = "success")) as [|Hs]; [auto|].
    destruct (decide (k = "error")) as [|He]; [auto|].
    rewrite lookup_insert_ne in Hk by congruence.
    rewrite lookup_singleton_ne in Hk by congruence. discriminate.
Qed.

Lemma uniform_success (r : result) :
  r !! "success" = Some (VBool true) -> r !! "error" = None ->
  uniform_result r.
Proof.
  intros Hs He. exists true. split; [exact Hs|]. rewrite He.
  split; [|split].
  - split; [intros [? ?]|]; discriminate.
  - discriminate.
  - discriminate.
Qed.

Ltac uniform :=
  lazymatch goal with
  | |- uniform_result {[ "success" := VBool false; "error" := VStr _ ]} =>
      apply uniform_error
  | |- _ => apply uniform_success; vm_compute; reflexivity
  end.

(** C7: whatever the input and whatever the vendor does, a tool returns a
    dictionary with a boolean under "success"; the key "error" is there
    exactly when "success" is false, and holds a string; and when "success"
    is false the dictionary has no other key, so the keys of resource names
    are only there when "success" is true. *)
Theorem results_are_uniform (V : Vendor) (c : tool_call) (h : trace) :
  exists (r : result) (success : bool),
    outcome (run_tool V c) h = inr r
    /\ r !! "success" = Some (VBool success)
    /\ (is_Some (r !! "error") <-> success = false)
    /\ (forall v, r !! "error" = Some v -> exists s, v = VStr s)
    /\ (success = false ->
        forall k, is_Some (r !! k) -> k = "success" \/ k = "error").
Proof.
  enough (exists r, outcome (run_tool V c) h = inr r /\ uniform_result r)
    as (r & Hr & success & Hu)
    by (exists r, success; split; [exact Hr | exact Hu]).
  wp_start. destruct c; cbn [run_tool].
  - unfold create_campaign, create_campaign_body.
    wp_run; eexists; (split; [reflexivity|]); uniform.
  - unfold create_ad_group, create_ad_group_body.
    wp_run; eexists; (split; [reflexivity|]); uniform.
  - unfold create_responsive_search_ad, create_responsive_search_ad_body.
    wp_run; eexists; (split; [reflexivity|]); uniform.
  - unfold create_keyword, create_keyword_body.
    wp_run; eexists; (split; [reflexivity|]); uniform.
  - unfold update_campaign, update_campaign_body, budget_update_block,
      campaign_update_block.
    wp_run; eexists; (split; [reflexivity|]); uniform.
Qed.

Example create_campaign_result :
  outcome (create_campaign demo_vendor "1" "Spring" 5000000 "SEARCH"
             "PAUSED" "STANDARD") [] =
    inr {[ "success" := VBool true;
           "campaign_resource_name" := VStr "customers/1/campaigns/42";
           "campaign_id" := VStr "42";
           "budget_resource_name" := VStr "customers/1/campaignBudgets/7" ]}.
Proof. vm_compute. reflexivity. Qed.

Example create_campaign_unknown_status :
  outcome (create_campaign demo_vendor "1" "Spring" 5000000 "SEARCH"
             "SLEEPING" "STANDARD") [] =
    inr {[ "success" := VBool false; "error" := VStr "SLEEPING" ]}.
Proof. vm_compute. reflexivity. Qed.

(** ** [update_campaign] *)

(** C6: with a budget amount given, [update_campaign] sends its query for
    the budget of the campaign before any mutation; the request holds a
    budget update, for the resource found, the given amount and the mask
    ["amount_micros"], exactly when the query found a budget resource; on a
    successful return "budget_updated" tells whether the request held a
    budget update; and when no budget resource is found and neither status
    nor name is given, the tool returns the error "No valid updates to
    perform" and sends no mutation. *)
Theorem update_campaign_budget
  (V : Vendor) (customer_id campaign_id : string)
  (status name : option string) (amount : Z) (h : trace) :
  let run :=
    update_campaign V customer_id campaign_id status name (Some amount) in
  let run_budget_only :=
    update_campaign V customer_id campaign_id None None (Some amount) in
  let query := budget_query campaign_id in
  let h1 := h ++ [EGetService "GoogleAdsService"] in
  let h2 := h1 ++ [EGetService "GoogleAdsService"] in
  let budget_operation found :=
    CampaignBudgetUpdate
      {| cb_resource_name := found;
         cb_name := None;
         cb_amount_micros := Some amount;
         cb_delivery_method := None;
         cb_explicitly_shared := None |}
      ["amount_micros"] in
  (service_calls (emitted run h) = []
   \/ service_calls (emitted run h) = [ESearchStream customer_id query]
   \/ exists s found campaign_ops,
        search_stream_response V h2 customer_id query = inr s
        /\ first_campaign_budget s = inr found
        /\ service_calls (emitted run h) =
             [ESearchStream customer_id query;
              EMutate customer_id
                ((if truthy found then [budget_operation found] else [])
                 ++ campaign_ops)]
        /\ existsb is_budget_update campaign_ops = false)
  /\ (forall r,
        outcome run h = inr r -> r !! "success" = Some (VBool true) ->
        exists ops,
          mutate_calls (emitted run h) = [(customer_id, ops)]
          /\ r !! "budget_updated" =
               Some (VBool (existsb is_budget_update ops)))
  /\ (forall s found,
        get_service_raises V h "GoogleAdsService" = None ->
        get_service_raises V h1 "GoogleAdsService" = None ->
        search_stream_response V h2 customer_id query = inr s ->
        first_campaign_budget s = inr found ->
        truthy found = false ->
        outcome run_budget_only h =
          inr {[ "success" := VBool false;
                 "error" := VStr "No valid updates to perform" ]}
        /\ emitted run_budget_only h =
             [EGetService "GoogleAdsService"; EGetService "GoogleAdsService";
              ESearchStream customer_id query]).
Proof.
  cbv zeta. split; [|split].
  - wp_start.
    unfold update_campaign, update_campaign_body, budget_update_block,
      campaign_update_block.
    destruct status, name; cbn [is_None negb orb andb].
    all: wp_run; obs; auto.
    all: right; right.
    all: match goal with
         | Hs : first_campaign_budget ?s = inr ?o, Hb : truthy ?o = _ |- _ =>
             exists s, o; eexists; rewrite Hb
         end.
    all: (split; [reflexivity|]); (split; [assumption|]).
    all: split; [cbn [app]; reflexivity | reflexivity].
  - wp_start.
    unfold update_campaign, update_campaign_body, budget_update_block,
      campaign_update_block.
    destruct status, name; cbn [is_None negb orb andb].
    all: wp_run; obs; intros r Hr Hsuccess.
    all: injection Hr as <-.
    all: try (vm_compute in Hsuccess; discriminate).
    all: eexists; (split; [reflexivity|]); vm_compute; reflexivity.
  - intros s found Hs1 Hs2 Hsearch Hfirst Hfalsy.
    split; wp_start;
      unfold update_campaign, update_campaign_body, budget_update_block,
        campaign_update_block;
      cbn [is_None negb orb andb]; wp_run; cbn [app]; congruence.
Qed.

Lemma update_campaign_budget_witness :
  outcome (update_campaign no_row_vendor "1" "42" None None (Some 7000000%Z))
    [] =
    inr {[ "success" := VBool false;
           "error" := VStr "No valid updates to perform" ]}
  /\ emitted (update_campaign no_row_vendor "1" "42" None None
                (Some 7000000%Z)) [] =
       [EGetService "GoogleAdsService"; EGetService "GoogleAdsService";
        ESearchStream "1" (budget_query "42")].
Proof.
  apply (proj2 (proj2 (update_campaign_budget no_row_vendor "1" "42" None
                         None 7000000 []))
           (SBatch [] SEnd) None); reflexivity.
Defined.

Example update_campaign_budget_found :
  service_calls (emitted (run_tool demo_vendor demo_update) []) =
    [ESearchStream "1" (budget_query "42");
     EMutate "1" [demo_budget_update; demo_campaign_update]]
  /\ outcome (run_tool demo_vendor demo_update) [] =
       inr {[ "success" := VBool true;
              "campaign_resource_name" := VStr "customers/1/campaigns/42";
              "budget_updated" := VBool true ]}.
Proof. split; vm_compute; reflexivity. Qed.

Example update_campaign_budget_not_found :
  service_calls
    (emitted (update_campaign no_row_vendor "1" "42" (Some "PAUSED") None
                (Some 7000000%Z)) []) =
    [ESearchStream "1" (budget_query "42");
     EMutate "1"
       [CampaignUpdate
          {| c_resource_name := Some "customers/1/campaigns/42";
             c_name := None;
             c_advertising_channel_type := None;
             c_status := Some 2%Z;
             c_campaign_budget := None;
             c_network_settings := None |}
          ["status"]]]
  /\ outcome (update_campaign no_row_vendor "1" "42" (Some "PAUSED") None
                (Some 7000000%Z)) [] =
       inr {[ "success" := VBool true;
              "campaign_resource_name" := VStr "customers/1/campaigns/42";
              "budget_updated" := VBool false ]}.
Proof. split; vm_compute; reflexivity. Qed.

(** C10: in every request of [update_campaign], the mask of the campaign
    update lists "status" and "name", in that order, for those of the two
    the caller gave and nothing else, and the mask of the budget update is
    ["amount_micros"]; the fields of the two messages that the mask does
    not name are left unset. *)
Theorem update_campaign_field_masks
  (V : Vendor) (customer_id campaign_id : string)
  (status name : option string) (budget_amount_micros : option Z)
  (h : trace) (cid : string) (ops : list MutateOperation)
  (op : MutateOperation) :
  In (cid, ops)
     (mutate_calls
        (emitted (update_campaign V customer_id campaign_id status name
                    budget_amount_micros) h)) ->
  In op ops ->
  match op with
  | CampaignUpdate c update_mask =>
      update_mask = provided "status" status ++ provided "name" name
      /\ c_resource_name c =
           Some ("customers/" +:+ customer_id +:+ "/campaigns/"
                 +:+ campaign_id)
      /\ (is_Some (c_status c) <-> is_Some status)
      /\ c_name c = name
      /\ c_advertising_channel_type c = None
      /\ c_campaign_budget c = None
      /\ c_network_settings c = None
  | CampaignBudgetUpdate b update_mask =>
      update_mask = ["amount_micros"]
      /\ is_Some (cb_resource_name b)
      /\ cb_amount_micros b = budget_amount_micros
      /\ cb_name b = None
      /\ cb_delivery_method b = None
      /\ cb_explicitly_shared b = None
  | _ => False
  end.
Proof.
  revert cid ops op. wp_start.
  unfold update_campaign, update_campaign_body, budget_update_block,
    campaign_update_block.
  destruct status, name; cbn [is_None negb orb andb].
  all: wp_run; obs; intros cid ops op Hcall Hop; cbn [In] in Hcall.
  all: try contradiction.
  all: destruct Hcall as [[= <- <-]|[]]; cbn [In] in Hop.
  all: repeat match goal with
              | H : _ \/ _ |- _ => destruct H as [<-|H]
              end; try contradiction.
  all: cbn [provided app fold_left c_status c_name c_resource_name
            c_advertising_channel_type c_campaign_budget c_network_settings
            cb_resource_name cb_amount_micros cb_name cb_delivery_method
            cb_explicitly_shared].
  all: repeat split; try reflexivity;
    try (intros _; eexists; reflexivity); try (intros [? [=]]).
  all: match goal with
       | H : truthy ?o = true |- is_Some ?o =>
           destruct o; [eexists; reflexivity | discriminate]
       end.
Qed.

Lemma update_campaign_field_masks_witness :
  match demo_campaign_update with
  | CampaignUpdate c update_mask =>
      update_mask =
        provided "status" (Some "PAUSED") ++ provided "name" (Some "Spring")
      /\ c_resource_name c =
           Some ("customers/" +:+ "1" +:+ "/campaigns/" +:+ "42")
      /\ (is_Some (c_status c) <-> is_Some (Some "PAUSED"))
      /\ c_name c = Some "Spring"
      /\ c_advertising_channel_type c = None
      /\ c_campaign_budget c = None
      /\ c_network_settings c = None
  | CampaignBudgetUpdate b update_mask =>
      update_mask = ["amount_micros"]
      /\ is_Some (cb_resource_name b)
      /\ cb_amount_micros b = Some 7000000%Z
      /\ cb_name b = None
      /\ cb_delivery_method b = None
      /\ cb_explicitly_shared b = None
  | _ => False
  end.
Proof.
  refine (update_campaign_field_masks demo_vendor "1" "42" (Some "PAUSED")
            (Some "Spring") (Some 7000000%Z) [] "1"
            [demo_budget_update; demo_campaign_update] demo_campaign_update
            _ _).
  - vm_compute. left. reflexivity.
  - simpl. right. left. reflexivity.
Defined.

(** * Further properties *)

(** ** The requests of the other tools *)

(** X1: the request of [create_ad_group] is one operation that creates an
    ad group with the given name and bid, under the campaign
    "customers/{customer_id}/campaigns/{campaign_id}", with the value the
    vendor gives for the name of the status. *)
Theorem create_ad_group_request
  (V : Vendor) (customer_id campaign_id name : string) (cpc_bid_micros : Z)
  (status : string) (h : trace) :
  mutate_calls
    (emitted (create_ad_group V customer_id campaign_id name cpc_bid_micros
                status) h) <> [] ->
  exists ad_group_status,
    getattr_enum V "AdGroupStatus" status = inr ad_group_status
    /\ mutate_calls
         (emitted (create_ad_group V customer_id campaign_id name
                     cpc_bid_micros status) h) =
         [(customer_id,
           [AdGroupCreate
              {| ag_name := Some name;
                 ag_campaign :=
                   Some ("customers/" +:+ customer_id +:+ "/campaigns/"
                         +:+ campaign_id);
                 ag_status := Some ad_group_status;
                 ag_cpc_bid_micros := Some cpc_bid_micros |}])].
Proof.
  wp_start. unfold create_ad_group, create_ad_group_body.
  wp_run; obs; try congruence; intros _; eauto.
Qed.

Lemma create_ad_group_request_witness :
  exists ad_group_status,
    getattr_enum demo_vendor "AdGroupStatus" "ENABLED" = inr ad_group_status
    /\ mutate_calls
         (emitted (create_ad_group demo_vendor "1" "42" "Shoes" 1000000
                     "ENABLED") []) =
         [("1",
           [AdGroupCreate
              {| ag_name := Some "Shoes";
                 ag_campaign :=
                   Some ("customers/" +:+ "1" +:+ "/campaigns/" +:+ "42");
                 ag_status := Some ad_group_status;
                 ag_cpc_bid_micros := Some 1000000%Z |}])].
Proof.
  apply (create_ad_group_request demo_vendor "1" "42" "Shoes" 1000000
           "ENABLED" []).
  vm_compute. discriminate.
Defined.

(** X2: the request of [create_keyword] is one operation that creates an
    enabled criterion in "customers/{customer_id}/adGroups/{ad_group_id}"
    with the given text and the value the vendor gives for the match type;
    its bid is set when [cpc_bid_micros] is given and left unset
    otherwise. *)
Theorem create_keyword_request
  (V : Vendor) (customer_id ad_group_id text match_type : string)
  (cpc_bid_micros : option Z) (h : trace) :
  mutate_calls
    (emitted (create_keyword V customer_id ad_group_id text match_type
                cpc_bid_micros) h) <> [] ->
  exists enabled keyword_match_type,
    getattr_enum V "AdGroupCriterionStatus" "ENABLED" = inr enabled
    /\ getattr_enum V "KeywordMatchType" match_type = inr keyword_match_type
    /\ mutate_calls
         (emitted (create_keyword V customer_id ad_group_id text match_type
                     cpc_bid_micros) h) =
         [(customer_id,
           [AdGroupCriterionCreate
              {| agc_ad_group :=
                   Some ("customers/" +:+ customer_id +:+ "/adGroups/"
                         +:+ ad_group_id);
                 agc_status := Some enabled;
                 agc_keyword :=
                   {| kw_text := Some text;
                      kw_match_type := Some keyword_match_type |};
                 agc_cpc_bid_micros := cpc_bid_micros |}])].
Proof.
  wp_start. unfold create_keyword, create_keyword_body.
  wp_run; obs; try congruence; intros _; eauto.
Qed.

Lemma create_keyword_request_witness :
  exists enabled keyword_match_type,
    getattr_enum demo_vendor "AdGroupCriterionStatus" "ENABLED" = inr enabled
    /\ getattr_enum demo_vendor "KeywordMatchType" "EXACT"
       = inr keyword_match_type
    /\ mutate_calls
         (emitted (create_keyword demo_vendor "1" "5" "shoes" "EXACT" None)
            []) =
         [("1",
           [AdGroupCriterionCreate
              {| agc_ad_group :=
                   Some ("customers/" +:+ "1" +:+ "/adGroups/" +:+ "5");
                 agc_status := Some enabled;
                 agc_keyword :=
                   {| kw_text := Some "shoes";
                      kw_match_type := Some keyword_match_type |};
                 agc_cpc_bid_micros := None |}])].
Proof.
  apply (create_keyword_request demo_vendor "1" "5" "shoes" "EXACT" None []).
  vm_compute. discriminate.
Defined.

(** X3: in a request of [create_campaign] the delivery method, the channel
    type and the status are the values the vendor gives for the three
    names, and the network settings are set, to Google search and the
    search network only, exactly when the channel type is "SEARCH". *)
Theorem create_campaign_settings
  (V : Vendor) (customer_id name : string) (budget_amount_micros : Z)
  (advertising_channel_type status budget_delivery_method : string)
  (h : trace) (cid : string) (budget : CampaignBudget) (campaign : Campaign) :
  In (cid, [CampaignBudgetCreate budget; CampaignCreate campaign])
     (mutate_calls
        (emitted (create_campaign V customer_id name budget_amount_micros
                    advertising_channel_type status budget_delivery_method)
           h)) ->
  exists delivery_method channel_type campaign_status,
    getattr_enum V "BudgetDeliveryMethod" budget_delivery_method
      = inr delivery_method
    /\ getattr_enum V "AdvertisingChannelType" advertising_channel_type
       = inr channel_type
    /\ getattr_enum V "CampaignStatus" status = inr campaign_status
    /\ cb_delivery_method budget = Some delivery_method
    /\ c_advertising_channel_type campaign = Some channel_type
    /\ c_status campaign = Some campaign_status
    /\ c_network_settings campaign =
         if String.eqb advertising_channel_type "SEARCH"
         then Some {| target_google_search := true;
                      target_search_network := true;
                      target_content_network := false;
                      target_partner_search_network := false |}
         else None.
Proof.
  revert cid budget campaign. wp_start.
  unfold create_campaign, create_campaign_body.
  wp_run; obs; intros cid budget campaign Hin; cbn [In] in Hin;
    try contradiction.
  all: destruct Hin as [[= <- <- <-]|[]].
  all: do 3 eexists; repeat split; eassumption || reflexivity.
Qed.

Lemma create_campaign_settings_witness :
  exists delivery_method channel_type campaign_status,
    getattr_enum demo_vendor "BudgetDeliveryMethod" "STANDARD"
      = inr delivery_method
    /\ getattr_enum demo_vendor "AdvertisingChannelType" "DISPLAY"
       = inr channel_type
    /\ getattr_enum demo_vendor "CampaignStatus" "PAUSED" = inr campaign_status
    /\ cb_delivery_method
         (mkCampaignBudget (Some "customers/1/campaignBudgets/-1")
            (Some "Spring Budget") (Some 5000000%Z) (Some 2%Z) (Some false))
       = Some delivery_method
    /\ c_advertising_channel_type
         (mkCampaign None (Some "Spring") (Some 2%Z) (Some 2%Z)
            (Some "customers/1/campaignBudgets/-1") None)
       = Some channel_type
    /\ c_status
         (mkCampaign None (Some "Spring") (Some 2%Z) (Some 2%Z)
            (Some "customers/1/campaignBudgets/-1") None)
       = Some campaign_status
    /\ c_network_settings
         (mkCampaign None (Some "Spring") (Some 2%Z) (Some 2%Z)
            (Some "customers/1/campaignBudgets/-1") None)
       = if String.eqb "DISPLAY" "SEARCH"
         then Some {| target_google_search := true;
                      target_search_network := true;
                      target_content_network := false;
                      target_partner_search_network := false |}
         else None.
Proof.
  apply (create_campaign_settings demo_vendor "1" "Spring" 5000000 "DISPLAY"
           "PAUSED" "STANDARD" [] "1").
  vm_compute. left. reflexivity.
Defined.

(** ** The identifier after the last "/" *)

Lemma contains_rev_app c a : forall b,
  contains c (String.rev_app a b) = contains c a || contains c b.
Proof.
  induction a as [|x a IH]; intros b; simpl; [reflexivity|].
  rewrite IH. simpl. destruct (Ascii.eqb x c), (contains c a); reflexivity.
Qed.

Lemma append_assoc (a b c : string) : (a +:+ b) +:+ c = a +:+ (b +:+ c).
Proof.
  induction a as [|x a IH]; [reflexivity|].
  exact (f_equal (String x) IH).
Qed.

Lemma rev_app_append a : forall b,
  String.rev_app a b = String.rev_app a "" +:+ b.
Proof.
  induction a as [|x a IH]; intros b; cbn [String.rev_app]; [reflexivity|].
  rewrite (IH (String x b)), (IH (String x "")), append_assoc.
  reflexivity.
Qed.

Lemma split_from_last (sep : ascii) (s : string) : forall cur,
  contains sep cur = false ->
  exists x,
    last (split_from sep cur s) = Some x
    /\ contains sep x = false
    /\ (String.rev_app cur s = x
        \/ exists p, String.rev_app cur s = p +:+ String sep x).
Proof.
  induction s as [|c rest IH]; intros cur Hcur.
  - exists (String.rev cur). split; [reflexivity|].
    split; [|left; reflexivity].
    unfold String.rev. rewrite contains_rev_app, Hcur. reflexivity.
  - simpl split_from. destruct (Ascii.eqb c sep) eqn:Hc.
    + apply Ascii.eqb_eq in Hc. subst c.
      destruct (IH EmptyString eq_refl) as (x & Hlast & Hx & Hs).
      exists x. split; [|split; [exact Hx|]].
      * rewrite last_cons, Hlast. reflexivity.
      * right. simpl in *. rewrite rev_app_append.
        destruct Hs as [->|[p ->]].
        -- exists (String.rev_app cur ""). reflexivity.
        -- exists (String.rev_app cur "" +:+ String sep p).
           rewrite append_assoc. reflexivity.
    + apply (IH (String c cur)). simpl. now rewrite Hc, Hcur.
Qed.

(** [s.split(sep)[-1]] exists, holds no [sep], and is [s] or what follows
    the last [sep] of [s]. *)
Lemma split_last (sep : ascii) (s : string) :
  exists x,
    last (split sep s) = Some x
    /\ contains sep x = false
    /\ (s = x \/ exists p, s = p +:+ String sep x).
Proof. apply (split_from_last sep s EmptyString eq_refl). Qed.

Lemma split_from_no_sep (sep : ascii) (s : string) : forall cur,
  contains sep s = false ->
  split_from sep cur s = [String.rev_app cur s].
Proof.
  induction s as [|c rest IH]; intros cur Hs; [reflexivity|].
  simpl in Hs. apply orb_false_iff in Hs as [Hc Hrest].
  simpl. rewrite Hc. apply (IH (String c cur) Hrest).
Qed.

Lemma last_split_from_app (sep : ascii) (x : string) :
  contains sep x = false ->
  forall p cur, last (split_from sep cur (p +:+ String sep x)) = Some x.
Proof.
  intros Hx. induction p as [|c p IH]; intros cur.
  - change ("" +:+ String sep x) with (String sep x).
    simpl. rewrite Ascii.eqb_refl.
    rewrite (split_from_no_sep sep x EmptyString Hx). reflexivity.
  - change (String c p +:+ String sep x) with (String c (p +:+ String sep x)).
    simpl. destruct (Ascii.eqb c sep).
    + rewrite last_cons, IH. reflexivity.
    + apply IH.
Qed.

(** Split the trace at the call to [mutate] that the vendor answered. *)
Ltac answered h :=
  match goal with
  | H : mutate_response _ _ _ _ = _ |- _ =>
      repeat rewrite <- app_assoc in H; cbn [app] in H;
      match type of H with
      | mutate_response _ (h ++ ?pre) _ ?ops = _ => exists pre, ops
      end
  end.

Ltac trace_eq :=
  repeat first [progress cbn [app] | rewrite <- app_assoc]; reflexivity.

(** ** What a successful result holds *)

(** X4: when [create_campaign] reports success, the vendor answered its
    request with at least two entries; the result holds the resource name
    of the budget from the first entry and that of the campaign from the
    second; and "campaign_id" is the part of the campaign's resource name
    after its last "/" (all of it when it has none), so it holds no "/". *)
Theorem create_campaign_success
  (V : Vendor) (customer_id name : string) (budget_amount_micros : Z)
  (advertising_channel_type status budget_delivery_method : string)
  (h : trace) (r : result) :
  outcome (create_campaign V customer_id name budget_amount_micros
             advertising_channel_type status budget_delivery_method) h
    = inr r ->
  r !! "success" = Some (VBool true) ->
  exists pre ops post budget campaign rest campaign_id,
    emitted (create_campaign V customer_id name budget_amount_micros
               advertising_channel_type status budget_delivery_method) h
      = pre ++ EMutate customer_id ops :: post
    /\ mutate_response V (h ++ pre) customer_id ops
         = inr (budget :: campaign :: rest)
    /\ r = {[ "success" := VBool true;
              "campaign_resource_name" := VStr (campaign_result campaign);
              "campaign_id" := VStr campaign_id;
              "budget_resource_name" :=
                VStr (campaign_budget_result budget) ]}
    /\ contains "/" campaign_id = false
    /\ (campaign_result campaign = campaign_id
        \/ exists p, campaign_result campaign = p +:+ "/" +:+ campaign_id).
Proof.
  revert r. wp_start.
  unfold create_campaign, create_campaign_body.
  wp_run; intros r Hr Hsuccess; injection Hr as <-.
  all: try (vm_compute in Hsuccess; discriminate).
  clear Hsuccess. answered h.
  match goal with
  | H : mutate_response _ _ _ _ = inr ?resp |- _ =>
      destruct resp as [|budget [|campaign rest]]; try discriminate
  end.
  repeat match goal with
         | H : _ !! _ = Some _ |- _ => injection H as <-
         end.
  eexists; exists budget, campaign, rest; eexists.
  split; [trace_eq|]. split; [assumption|]. split; [reflexivity|].
  destruct (split_last "/" (campaign_result campaign))
    as (x & Hlast & Hx & Hs).
  match goal with
  | H : last _ = Some _ |- _ => rewrite Hlast in H; injection H as <-
  end.
  split; [exact Hx | exact Hs].
Qed.

Lemma create_campaign_success_witness :
  exists pre ops post budget campaign rest campaign_id,
    emitted (create_campaign demo_vendor "1" "Spring" 5000000 "SEARCH"
               "PAUSED" "STANDARD") []
      = pre ++ EMutate "1" ops :: post
    /\ mutate_response demo_vendor ([] ++ pre) "1" ops
         = inr (budget :: campaign :: rest)
    /\ demo_campaign_result
       = {[ "success" := VBool true;
            "campaign_resource_name" := VStr (campaign_result campaign);
            "campaign_id" := VStr campaign_id;
            "budget_resource_name" := VStr (campaign_budget_result budget) ]}
    /\ contains "/" campaign_id = false
    /\ (campaign_result campaign = campaign_id
        \/ exists p, campaign_result campaign = p +:+ "/" +:+ campaign_id).
Proof.
  apply (create_campaign_success demo_vendor "1" "Spring" 5000000 "SEARCH"
           "PAUSED" "STANDARD" [] demo_campaign_result).
  - vm_compute. reflexivity.
  - vm_compute. reflexivity.
Defined.

(** X5: when [create_ad_group] reports success, the vendor answered its
    request with at least one entry; the result holds the resource name of
    the ad group from the first entry, and "ad_group_id" is the part of it
    after its last "/" (all of it when it has none). *)
Theorem create_ad_group_success
  (V : Vendor) (customer_id campaign_id name : string) (cpc_bid_micros : Z)
  (status : string) (h : trace) (r : result) :
  outcome (create_ad_group V customer_id campaign_id name cpc_bid_micros
             status) h = inr r ->
  r !! "success" = Some (VBool true) ->
  exists pre ops post ad_group rest ad_group_id,
    emitted (create_ad_group V customer_id campaign_id name cpc_bid_micros
               status) h
      = pre ++ EMutate customer_id ops :: post
    /\ mutate_response V (h ++ pre) customer_id ops = inr (ad_group :: rest)
    /\ r = {[ "success" := VBool true;
              "ad_group_resource_name" := VStr (ad_group_result ad_group);
              "ad_group_id" := VStr ad_group_id ]}
    /\ contains "/" ad_group_id = false
    /\ (ad_group_result ad_group = ad_group_id
        \/ exists p, ad_group_result ad_group = p +:+ "/" +:+ ad_group_id).
Proof.
  revert r. wp_start.
  unfold create_ad_group, create_ad_group_body.
  wp_run; intros r Hr Hsuccess; injection Hr as <-.
  all: try (vm_compute in Hsuccess; discriminate).
  clear Hsuccess. answered h.
  match goal with
  | H : mutate_response _ _ _ _ = inr ?resp |- _ =>
      destruct resp as [|ad_group rest]; try discriminate
  end.
  repeat match goal with
         | H : _ !! _ = Some _ |- _ => injection H as <-
         end.
  eexists; exists ad_group, rest; eexists.
  split; [trace_eq|]. split; [assumption|]. split; [reflexivity|].
  destruct (split_last "/" (ad_group_result ad_group))
    as (x & Hlast & Hx & Hs).
  match goal with
  | H : last _ = Some _ |- _ => rewrite Hlast in H; injection H as <-
  end.
  split; [exact Hx | exact Hs].
Qed.

Lemma create_ad_group_success_witness :
  exists pre ops post ad_group rest ad_group_id,
    emitted (create_ad_group demo_vendor "1" "42" "Shoes" 1000000 "ENABLED")
      []
      = pre ++ EMutate "1" ops :: post
    /\ mutate_response demo_vendor ([] ++ pre) "1" ops
       = inr (ad_group :: rest)
    /\ demo_ad_group_result
       = {[ "success" := VBool true;
            "ad_group_resource_name" := VStr (ad_group_result ad_group);
            "ad_group_id" := VStr ad_group_id ]}
    /\ contains "/" ad_group_id = false
    /\ (ad_group_result ad_group = ad_group_id
        \/ exists p, ad_group_result ad_group = p +:+ "/" +:+ ad_group_id).
Proof.
  apply (create_ad_group_success demo_vendor "1" "42" "Shoes" 1000000
           "ENABLED" [] demo_ad_group_result).
  - vm_compute. reflexivity.
  - vm_compute. reflexivity.
Defined.

(** X6: the "campaign_id" that [create_campaign] returns for a campaign
    named "customers/{customer_id}/campaigns/{id}" by the vendor is [id],
    and [create_ad_group] called with it puts the ad group under that same
    resource name. *)
Theorem campaign_id_feeds_ad_group
  (V V' : Vendor) (customer_id name : string) (budget_amount_micros : Z)
  (advertising_channel_type status budget_delivery_method : string)
  (h : trace) (r : result) (id : string)
  (name' : string) (cpc_bid_micros : Z) (status' : string) (h' : trace) :
  outcome (create_campaign V customer_id name budget_amount_micros
             advertising_channel_type status budget_delivery_method) h
    = inr r ->
  r !! "campaign_resource_name" =
    Some (VStr ("customers/" +:+ customer_id +:+ "/campaigns/" +:+ id)) ->
  contains "/" id = false ->
  r !! "campaign_id" = Some (VStr id)
  /\ forall cid ad_group,
       In (cid, [AdGroupCreate ad_group])
          (mutate_calls
             (emitted (create_ad_group V' customer_id id name' cpc_bid_micros
                         status') h')) ->
       VStr <$> ag_campaign ad_group = r !! "campaign_resource_name".
Proof.
  intros Hr Hname Hid. split.
  - revert r Hr Hname. wp_start.
    unfold create_campaign, create_campaign_body.
    wp_run; intros r Hr Hname; injection Hr as <-.
    all: try (vm_compute in Hname; discriminate).
    rewrite lookup_insert_ne, lookup_insert_eq in Hname by discriminate.
    injection Hname as Hname.
    rewrite !lookup_insert_ne, lookup_insert_eq by discriminate.
    match goal with
    | H : last (split _ _) = Some ?x |- _ =>
        rewrite Hname in H;
        change (split "/" ("customers/" +:+ customer_id +:+ "/campaigns/"
                           +:+ id))
          with (split_from "/" EmptyString
                  ("customers/" +:+ customer_id +:+ "/campaigns"
                   +:+ String "/" id)) in H;
        rewrite <- !append_assoc in H;
        rewrite (last_split_from_app "/" id Hid) in H;
        injection H as <-
    end.
    reflexivity.
  - rewrite Hname. clear Hr Hname. wp_start.
    unfold create_ad_group, create_ad_group_body.
    wp_run; obs; intros cid ad_group Hin; cbn [In] in Hin;
      try contradiction.
    all: destruct Hin as [[= <- <-]|[]]; reflexivity.
Qed.

Lemma campaign_id_feeds_ad_group_witness :
  demo_campaign_result !! "campaign_id" = Some (VStr "42")
  /\ forall cid ad_group,
       In (cid, [AdGroupCreate ad_group])
          (mutate_calls
             (emitted (create_ad_group demo_vendor "1" "42" "Shoes" 1000000
                         "ENABLED") [])) ->
       VStr <$> ag_campaign ad_group
       = demo_campaign_result !! "campaign_resource_name".
Proof.
  apply (campaign_id_feeds_ad_group demo_vendor demo_vendor "1" "Spring"
           5000000 "SEARCH" "PAUSED" "STANDARD" [] demo_campaign_result
           "42" "Shoes" 1000000 "ENABLED" []).
  - vm_compute. reflexivity.
  - vm_compute. reflexivity.
  - reflexivity.
Defined.

(** ** After the request is sent *)

(** X7: once [update_campaign] has sent its request, the result depends
    only on whether [mutate] raised: if it returned, whatever the response,
    the result is a success with the resource name of the campaign built
    from the arguments and "budget_updated" telling whether the request
    held a budget update; if it raised, the result is the error of that
    exception. *)
Theorem update_campaign_after_submission
  (V : Vendor) (customer_id campaign_id : string)
  (status name : option string) (budget_amount_micros : option Z)
  (h : trace) :
  mutate_calls
    (emitted (update_campaign V customer_id campaign_id status name
                budget_amount_micros) h) <> [] ->
  exists pre ops post,
    emitted (update_campaign V customer_id campaign_id status name
               budget_amount_micros) h
      = pre ++ EMutate customer_id ops :: post
    /\ outcome (update_campaign V customer_id campaign_id status name
                  budget_amount_micros) h
       = inr match mutate_response V (h ++ pre) customer_id ops with
             | inr _ =>
                 {[ "success" := VBool true;
                    "campaign_resource_name" :=
                      VStr ("customers/" +:+ customer_id +:+ "/campaigns/"
                            +:+ campaign_id);
                    "budget_updated" :=
                      VBool (existsb is_budget_update ops) ]}
             | inl e =>
                 {[ "success" := VBool false; "error" := VStr (error_of e) ]}
             end.
Proof.
  wp_start.
  unfold update_campaign, update_campaign_body, budget_update_block,
    campaign_update_block.
  wp_run; obs; try congruence; intros _.
  all: answered h; eexists; (split; [trace_eq|]).
  all: match goal with
       | H : mutate_response _ _ _ _ = _ |- _ => rewrite H
       end.
  all: subst; cbn [existsb is_budget_update orb error_of]; reflexivity.
Qed.

Lemma update_campaign_after_submission_witness :
  exists pre ops post,
    emitted (update_campaign demo_vendor "1" "42" (Some "PAUSED")
               (Some "Spring") (Some 7000000%Z)) []
      = pre ++ EMutate "1" ops :: post
    /\ outcome (update_campaign demo_vendor "1" "42" (Some "PAUSED")
                  (Some "Spring") (Some 7000000%Z)) []
       = inr match mutate_response demo_vendor ([] ++ pre) "1" ops with
             | inr _ =>
                 {[ "success" := VBool true;
                    "campaign_resource_name" :=
                      VStr ("customers/" +:+ "1" +:+ "/campaigns/" +:+ "42");
                    "budget_updated" :=
                      VBool (existsb is_budget_update ops) ]}
             | inl e =>
                 {[ "success" := VBool false; "error" := VStr (error_of e) ]}
             end.
Proof.
  apply (update_campaign_after_submission demo_vendor "1" "42"
           (Some "PAUSED") (Some "Spring") (Some 7000000%Z) []).
  vm_compute. discriminate.
Defined.

Ltac long_enough :=
  repeat match goal with
         | H : _ !! _ = Some _ |- _ => apply lookup_lt_Some in H
         end;
  cbn [entries_read]; lia.

(** X8: a tool reports success only after the vendor answered its one
    request: the trace holds the call to [mutate], no other before it and
    nothing sent after it, and the response has all the entries the tool
    reads. *)
Theorem success_means_accepted (V : Vendor) (c : tool_call) (h : trace)
  (r : result) :
  outcome (run_tool V c) h = inr r ->
  r !! "success" = Some (VBool true) ->
  exists pre ops post response,
    emitted (run_tool V c) h = pre ++ EMutate (customer_id_of c) ops :: post
    /\ mutate_response V (h ++ pre) (customer_id_of c) ops = inr response
    /\ mutate_calls pre = []
    /\ service_calls post = []
    /\ entries_read c <= length response.
Proof.
  revert r. wp_start. destruct c; cbn [run_tool customer_id_of].
  - unfold create_campaign, create_campaign_body.
    wp_run; intros r Hr Hsuccess; injection Hr as <-;
      try (vm_compute in Hsuccess; discriminate).
    all: answered h; do 2 eexists; (split; [trace_eq|]);
      (split; [eassumption|]).
    all: split; [obs; reflexivity|]; split; [obs; reflexivity|long_enough].
  - unfold create_ad_group, create_ad_group_body.
    wp_run; intros r Hr Hsuccess; injection Hr as <-;
      try (vm_compute in Hsuccess; discriminate).
    all: answered h; do 2 eexists; (split; [trace_eq|]);
      (split; [eassumption|]).
    all: split; [obs; reflexivity|]; split; [obs; reflexivity|long_enough].
  - unfold create_responsive_search_ad, create_responsive_search_ad_body.
    wp_run; intros r Hr Hsuccess; injection Hr as <-;
      try (vm_compute in Hsuccess; discriminate).
    all: answered h; do 2 eexists; (split; [trace_eq|]);
      (split; [eassumption|]).
    all: split; [obs; reflexivity|]; split; [obs; reflexivity|long_enough].
  - unfold create_keyword, create_keyword_body.
    wp_run; intros r Hr Hsuccess; injection Hr as <-;
      try (vm_compute in Hsuccess; discriminate).
    all: answered h; do 2 eexists; (split; [trace_eq|]);
      (split; [eassumption|]).
    all: split; [obs; reflexivity|]; split; [obs; reflexivity|long_enough].
  - unfold update_campaign, update_campaign_body, budget_update_block,
      campaign_update_block.
    wp_run; intros r Hr Hsuccess; injection Hr as <-;
      try (vm_compute in Hsuccess; discriminate).
    all: answered h; do 2 eexists; (split; [trace_eq|]);
      (split; [eassumption|]).
    all: split; [obs; reflexivity|]; split; [obs; reflexivity|long_enough].
Qed.

Lemma success_means_accepted_witness :
  exists pre ops post response,
    emitted (run_tool demo_vendor demo_update) []
      = pre ++ EMutate (customer_id_of demo_update) ops :: post
    /\ mutate_response demo_vendor ([] ++ pre) (customer_id_of demo_update)
         ops = inr response
    /\ mutate_calls pre = []
    /\ service_calls post = []
    /\ entries_read demo_update <= length response.
Proof.
  apply (success_means_accepted demo_vendor demo_update []
           demo_update_result).
  - vm_compute. reflexivity.
  - vm_compute. reflexivity.
Defined.

Ltac too_short :=
  exfalso;
  repeat match goal with
         | H : _ !! _ = Some _ |- _ => apply lookup_lt_Some in H
         end;
  match goal with
  | H : mutate_response _ _ _ _ = inr ?m,
    H' : mutate_response _ _ _ _ = inr ?m' |- _ =>
      assert (m = m') by congruence; subst; cbn [entries_read] in *; lia
  end.

(** X9: a failure does not mean that nothing was sent.  When the vendor
    answers the request of a tool with fewer entries than the tool reads
    (two in [create_campaign], one in the other tools that create), the
    tool returns a failure although its request went through. *)
Theorem short_response_is_failure (V : Vendor) (c : tool_call) (h : trace) :
  mutate_calls (emitted (run_tool V c) h) <> [] ->
  exists pre ops post,
    emitted (run_tool V c) h = pre ++ EMutate (customer_id_of c) ops :: post
    /\ forall response,
         mutate_response V (h ++ pre) (customer_id_of c) ops = inr response ->
         length response < entries_read c ->
         exists r,
           outcome (run_tool V c) h = inr r
           /\ r !! "success" = Some (VBool false).
Proof.
  wp_start. destruct c; cbn [run_tool customer_id_of].
  - unfold create_campaign, create_campaign_body.
    wp_run; obs; try congruence; intros _.
    all: answered h; eexists; (split; [trace_eq|]); intros response Hr Hlen.
    all: first [eexists; split; reflexivity | too_short].
  - unfold create_ad_group, create_ad_group_body.
    wp_run; obs; try congruence; intros _.
    all: answered h; eexists; (split; [trace_eq|]); intros response Hr Hlen.
    all: first [eexists; split; reflexivity | too_short].
  - unfold create_responsive_search_ad, create_responsive_search_ad_body.
    wp_run; obs; try congruence; intros _.
    all: answered h; eexists; (split; [trace_eq|]); intros response Hr Hlen.
    all: first [eexists; split; reflexivity | too_short].
  - unfold create_keyword, create_keyword_body.
    wp_run; obs; try congruence; intros _.
    all: answered h; eexists; (split; [trace_eq|]); intros response Hr Hlen.
    all: first [eexists; split; reflexivity | too_short].
  - unfold update_campaign, update_campaign_body, budget_update_block,
      campaign_update_block.
    wp_run; obs; try congruence; intros _.
    all: answered h; eexists; (split; [trace_eq|]); intros response Hr Hlen.
    all: cbn [entries_read] in Hlen; lia.
Qed.

Lemma short_response_is_failure_witness :
  exists pre ops post,
    emitted (run_tool terse_vendor demo_create_ad_group) []
      = pre ++ EMutate (customer_id_of demo_create_ad_group) ops :: post
    /\ forall response,
         mutate_response terse_vendor ([] ++ pre)
           (customer_id_of demo_create_ad_group) ops = inr response ->
         length response < entries_read demo_create_ad_group ->
         exists r,
           outcome (run_tool terse_vendor demo_create_ad_group) [] = inr r
           /\ r !! "success" = Some (VBool false).
Proof.
  apply (short_response_is_failure terse_vendor demo_create_ad_group []).
  vm_compute. discriminate.
Defined.

Example ad_group_created_but_failure_reported :
  mutate_calls (emitted (run_tool terse_vendor demo_create_ad_group) []) =
    [("1", [AdGroupCreate demo_ad_group])]
  /\ outcome (run_tool terse_vendor demo_create_ad_group) [] =
       inr {[ "success" := VBool false; "error" := VStr (str IndexError) ]}.
Proof. split; vm_compute; reflexivity. Qed.

(** ** What the tools never send *)

(** X10: without a budget amount [update_campaign] sends no query, and its
    request, if any, is the campaign update alone. *)
Theorem update_campaign_without_budget
  (V : Vendor) (customer_id campaign_id : string)
  (status name : option string) (h : trace) :
  service_calls
    (emitted (update_campaign V customer_id campaign_id status name None) h)
    = []
  \/ exists campaign,
       service_calls
         (emitted (update_campaign V customer_id campaign_id status name
                     None) h)
         = [EMutate customer_id
              [CampaignUpdate campaign
                 (provided "status" status ++ provided "name" name)]].
Proof.
  wp_start.
  unfold update_campaign, update_campaign_body, budget_update_block,
    campaign_update_block.
  destruct status, name; cbn [is_None negb orb andb].
  all: wp_run; obs; eauto.
Qed.

(** X11: the four tools that create a resource never query the platform:
    what they send is nothing or their one call to [mutate]. *)
Theorem create_tools_never_query (V : Vendor) (c : tool_call) (h : trace) :
  is_create c = true ->
  service_calls (emitted (run_tool V c) h) = []
  \/ exists ops,
       service_calls (emitted (run_tool V c) h)
         = [EMutate (customer_id_of c) ops].
Proof.
  intros Hc. wp_start. destruct c; try discriminate Hc;
    cbn [run_tool customer_id_of].
  - unfold create_campaign, create_campaign_body. wp_run; obs; eauto.
  - unfold create_ad_group, create_ad_group_body. wp_run; obs; eauto.
  - unfold create_responsive_search_ad, create_responsive_search_ad_body.
    wp_run; obs; eauto.
  - unfold create_keyword, create_keyword_body. wp_run; obs; eauto.
Qed.

Lemma create_tools_never_query_witness :
  service_calls (emitted (run_tool demo_vendor demo_create_campaign) []) = []
  \/ exists ops,
       service_calls (emitted (run_tool demo_vendor demo_create_campaign) [])
         = [EMutate (customer_id_of demo_create_campaign) ops].
Proof.
  apply (create_tools_never_query demo_vendor demo_create_campaign []).
  reflexivity.
Defined.

(** X12: a name that is no member of its enum class stops the tool before
    anything is sent: when the vendor raises on one of the members the tool
    reads, the tool sends no request and returns a failure.  In
    [update_campaign] this also holds back a budget update that was already
    built. *)
Theorem unknown_member_blocks_request
  (V : Vendor) (c : tool_call) (h : trace) (enum member : string) (e : exn) :
  In (enum, member) (enum_lookups c) ->
  getattr_enum V enum member = inl e ->
  mutate_calls (emitted (run_tool V c) h) = []
  /\ exists r,
       outcome (run_tool V c) h = inr r
       /\ r !! "success" = Some (VBool false).
Proof.
  intros Hin He. wp_start. destruct c; cbn [run_tool enum_lookups In] in *.
  - unfold create_campaign, create_campaign_body.
    destruct Hin as [[= <- <-]|[[= <- <-]|[[= <- <-]|[]]]].
    all: wp_run; try congruence; obs.
    all: split; [reflexivity|]; eexists; split; reflexivity.
  - unfold create_ad_group, create_ad_group_body.
    destruct Hin as [[= <- <-]|[]].
    all: wp_run; try congruence; obs.
    all: split; [reflexivity|]; eexists; split; reflexivity.
  - unfold create_responsive_search_ad, create_responsive_search_ad_body.
    destruct Hin as [[= <- <-]|[]].
    all: wp_run; try congruence; obs.
    all: split; [reflexivity|]; eexists; split; reflexivity.
  - unfold create_keyword, create_keyword_body.
    destruct Hin as [[= <- <-]|[[= <- <-]|[]]].
    all: wp_run; try congruence; obs.
    all: split; [reflexivity|]; eexists; split; reflexivity.
  - unfold update_campaign, update_campaign_body, budget_update_block,
      campaign_update_block.
    destruct status as [st|]; [|contradiction].
    destruct Hin as [[= <- <-]|[]].
    cbn [is_None negb orb andb].
    all: wp_run; try congruence; obs.
    all: split; [reflexivity|]; eexists; split; reflexivity.
Qed.

Lemma unknown_member_blocks_request_witness :
  mutate_calls
    (emitted (run_tool demo_vendor
                (UpdateCampaign "1" "42" (Some "SLEEPING") None
                   (Some 7000000%Z))) []) = []
  /\ exists r,
       outcome (run_tool demo_vendor
                  (UpdateCampaign "1" "42" (Some "SLEEPING") None
                     (Some 7000000%Z))) [] = inr r
       /\ r !! "success" = Some (VBool false).
Proof.
  apply (unknown_member_blocks_request demo_vendor
           (UpdateCampaign "1" "42" (Some "SLEEPING") None (Some 7000000%Z))
           [] "CampaignStatus" "SLEEPING" (Other "SLEEPING")).
  - simpl. left. reflexivity.
  - reflexivity.
Defined.

(** ** Logging and the keys of a success *)

Lemma error_logs_asset_gets n : omap as_error_log (asset_gets n) = [].
Proof. induction n; auto. Qed.

Lemma error_logs_skip_asset_gets n es :
  omap as_error_log (asset_gets n ++ es) = omap as_error_log es.
Proof. now rewrite omap_app, error_logs_asset_gets. Qed.

Ltac obs_logs :=
  repeat first
    [ progress cbn [app error_logs omap list_omap as_error_log]
    | rewrite <- app_assoc
    | rewrite error_logs_skip_asset_gets
    | rewrite error_logs_asset_gets ].

Lemma tool_body_no_error_log (V : Vendor) (c : tool_call) (h : trace) :
  error_logs (emitted (tool_body V c) h) = [].
Proof.
  wp_start. destruct c; cbn [tool_body].
  - unfold create_campaign_body. wp_run; obs_logs; reflexivity.
  - unfold create_ad_group_body. wp_run; obs_logs; reflexivity.
  - unfold create_responsive_search_ad_body. wp_run; obs_logs; reflexivity.
  - unfold create_keyword_body. wp_run; obs_logs; reflexivity.
  - unfold update_campaign_body, budget_update_block, campaign_update_block.
    wp_run; obs_logs; reflexivity.
Qed.

(** X13: a tool logs at level ERROR exactly when its [try] block raised,
    once, with the name of the tool and the text it returns as "error";
    a success and a failure of the local checks log no error. *)
Theorem errors_are_logged_once (V : Vendor) (c : tool_call) (h : trace) :
  error_logs (emitted (run_tool V c) h) =
    match outcome (tool_body V c) h with
    | inl (GoogleAds ex) =>
        ["ads_mcp." +:+ tool_name c +:+ " failed: "
         +:+ _extract_error_details ex]
    | inl (Other s) =>
        ["ads_mcp." +:+ tool_name c +:+ " unexpected error: " +:+ s]
    | inr _ => []
    end.
Proof.
  rewrite run_tool_try_except, emitted_try_except.
  unfold error_logs. rewrite omap_app.
  change (omap as_error_log (emitted (tool_body V c) h))
    with (error_logs (emitted (tool_body V c) h)).
  rewrite tool_body_no_error_log.
  destruct (outcome (tool_body V c) h) as [[ex|s]|r]; reflexivity.
Qed.

Example create_campaign_rejected_log :
  error_logs
    (emitted (create_campaign rejecting_vendor "1" "Spring" 5000000 "SEARCH"
                "PAUSED" "STANDARD") []) =
    ["ads_mcp.create_campaign failed: campaign_error: DUPLICATE_CAMPAIGN_NAME: A campaign with this name exists.; range_error: TOO_LOW: Too low."].
Proof. vm_compute. reflexivity. Qed.

(** X14: the dictionary of a success holds exactly the keys the docstring
    of the tool lists for it. *)
Theorem success_result_keys (V : Vendor) (c : tool_call) (h : trace)
  (r : result) :
  outcome (run_tool V c) h = inr r ->
  r !! "success" = Some (VBool true) ->
  dom r = success_keys c.
Proof.
  revert r. wp_start. destruct c; cbn [run_tool success_keys].
  - unfold create_campaign, create_campaign_body.
    wp_run; intros r Hr Hsuccess; injection Hr as <-;
      try (vm_compute in Hsuccess; discriminate).
    all: rewrite !dom_insert_L, dom_singleton_L; set_solver.
  - unfold create_ad_group, create_ad_group_body.
    wp_run; intros r Hr Hsuccess; injection Hr as <-;
      try (vm_compute in Hsuccess; discriminate).
    all: rewrite !dom_insert_L, dom_singleton_L; set_solver.
  - unfold create_responsive_search_ad, create_responsive_search_ad_body.
    wp_run; intros r Hr Hsuccess; injection Hr as <-;
      try (vm_compute in Hsuccess; discriminate).
    all: rewrite !dom_insert_L, dom_singleton_L; set_solver.
  - unfold create_keyword, create_keyword_body.
    wp_run; intros r Hr Hsuccess; injection Hr as <-;
      try (vm_compute in Hsuccess; discriminate).
    all: rewrite !dom_insert_L, dom_singleton_L; set_solver.
  - unfold update_campaign, update_campaign_body, budget_update_block,
      campaign_update_block.
    wp_run; intros r Hr Hsuccess; injection Hr as <-;
      try (vm_compute in Hsuccess; discriminate).
    all: rewrite !dom_insert_L, dom_singleton_L; set_solver.
Qed.

Lemma success_result_keys_witness :
  dom demo_campaign_result = success_keys demo_create_campaign.
Proof.
  apply (success_result_keys demo_vendor demo_create_campaign []
           demo_campaign_result).
  - vm_compute. reflexivity.
  - vm_compute. reflexivity.
Defined.
